(** * ElastiCluster: the Ansible setup provider

    A shallow embedding of [elasticluster/providers/ansible_provider.py]
    (class [AnsibleSetupProvider]) together with the properties of its
    inventory builder, its invocation of [ansible-playbook] and its
    clean-up of inventory files.

    Python values are embedded as follows: [str] as [string], [dict] as
    stdpp's [gmap] (whose iteration order, like that of a Python 2 [dict],
    is fixed but unspecified), [list] as [list], optional arguments as
    [option].  The operating system (file system, process environment,
    child processes) is an explicit [World] threaded through a small
    state-and-exception monad. *)

From Stdlib Require Import Ascii String ZArith Lia.
From stdpp Require Import base option list strings gmap fin_maps infinite.

Local Open Scope Z_scope.

(** ** Python strings *)

Module PyStr.

Definition chars : string → list ascii := String.list_ascii_of_string.
Definition of_chars : list ascii → string := String.string_of_list_ascii.

(** [bool(s)]: the empty string is falsy. *)
Definition truthy (s : string) : bool :=
  match s with EmptyString => false | String _ _ => true end.

(** [bool(o)] for an argument that is [None] or a string. *)
Definition truthy_opt (o : option string) : bool :=
  match o with None => false | Some s => truthy s end.

(** ['%s' % o] for a value that is [None] or a string. *)
Definition str_opt (o : option string) : string :=
  match o with None => "None" | Some s => s end.

(** [s.startswith(c)] for a one-character prefix. *)
Definition startswith_char (c : ascii) (s : string) : bool :=
  match s with String x _ => bool_decide (x = c) | EmptyString => false end.

(** [s.endswith(c)] for a one-character suffix. *)
Fixpoint endswith_char (c : ascii) (s : string) : bool :=
  match s with
  | EmptyString => false
  | String x EmptyString => bool_decide (x = c)
  | String _ s' => endswith_char c s'
  end.

(** [s.lstrip()] and [s.strip()] on character lists: Python strips the
    characters space, TAB, LF, VT, FF and CR. *)
Fixpoint lstrip_chars (s : list ascii) : list ascii :=
  match s with
  | x :: s' => if Ascii.is_space x then lstrip_chars s' else s
  | [] => []
  end.

Definition strip_chars (s : list ascii) : list ascii :=
  rev (lstrip_chars (rev (lstrip_chars s))).

Definition strip (s : string) : string := of_chars (strip_chars (chars s)).

(** [sep.join(l)] *)
Fixpoint join (sep : string) (l : list string) : string :=
  match l with
  | [] => ""
  | [x] => x
  | x :: l' => x +:+ sep +:+ join sep l'
  end.

(** [''.join(l)] *)
Definition concat (l : list string) : string := foldr String.append "" l.

(** [c * n] for a one-character string [c]. *)
Fixpoint repeat_char (c : ascii) (n : nat) : string :=
  match n with O => "" | S n' => String c (repeat_char c n') end.

(** The pieces of [s] between the characters of class [sep], as
    [s.split(c)] gives them for a single separator; [cur] holds, reversed,
    the piece being read. *)
Fixpoint cut_at (sep : ascii → bool) (s cur : list ascii)
  : list (list ascii) :=
  match s with
  | [] => [rev cur]
  | x :: s' =>
      if sep x then rev cur :: cut_at sep s' [] else cut_at sep s' (x :: cur)
  end.

(** The line feed, written [\n] in the source. *)
Definition nl : string := String "010"%char "".

(** [c in s] *)
Fixpoint contains_char (c : ascii) (s : string) : bool :=
  match s with
  | EmptyString => false
  | String x s' => bool_decide (x = c) || contains_char c s'
  end.

End PyStr.

(** ** The regular expressions of the module

    [_PATH_SPLIT_RE = re.compile(r'\s* [,:] \s*', re.X)]: under [re.X]
    the blanks of the pattern are ignored, which leaves [\s*[,:]\s*].
    The pattern language needed is a sequence of character classes, each
    taken once or starred; the matcher is the backtracking, greedy one of
    Python's [re]. *)

Module Re.

Inductive item :=
| One (cls : ascii → bool)
| Star (cls : ascii → bool).

Definition pattern := list item.

(** [match_at p s]: match [p] at the start of [s]; the result is what is
    left of [s] after the match.  A starred class first tries to take
    one more character and gives it back when the rest fails. *)
Fixpoint match_at (p : pattern) : list ascii → option (list ascii) :=
  match p with
  | [] => λ s, Some s
  | One cls :: p' => λ s,
      match s with
      | x :: s' => if cls x then match_at p' s' else None
      | [] => None
      end
  | Star cls :: p' =>
      fix star (s : list ascii) : option (list ascii) :=
        match s with
        | x :: s' =>
            if cls x
            then match star s' with
                 | Some r => Some r
                 | None => match_at p' s
                 end
            else match_at p' s
        | [] => match_at p' []
        end
  end.

(** [re.split]: the pieces between successive leftmost matches.  [cur]
    holds, reversed, the characters of the piece being read.  The
    patterns used here never match the empty string, so a match always
    consumes input and [length s] steps are enough. *)
Fixpoint split_fuel (p : pattern) (fuel : nat) (s cur : list ascii)
  : list (list ascii) :=
  match fuel with
  | O => [rev cur ++ s]
  | S fuel' =>
      match s with
      | [] => [rev cur]
      | x :: s' =>
          match match_at p s with
          | Some rest => rev cur :: split_fuel p fuel' rest []
          | None => split_fuel p fuel' s' (x :: cur)
          end
      end
  end.

Definition split (p : pattern) (s : string) : list string :=
  map PyStr.of_chars (split_fuel p (length (PyStr.chars s)) (PyStr.chars s) []).

End Re.

Definition is_path_sep (x : ascii) : bool :=
  bool_decide (x = ","%char) || bool_decide (x = ":"%char).

(** [_PATH_SPLIT_RE] *)
Definition _PATH_SPLIT_RE : Re.pattern :=
  [Re.Star Ascii.is_space; Re.One is_path_sep; Re.Star Ascii.is_space].

(** [__init__], lines 112-116: the value given to
    [self._ansible_module_dir]. *)
Definition parse_ansible_module_dir (ansible_module_dir : option string)
  : list string :=
  if PyStr.truthy_opt ansible_module_dir
  then map PyStr.strip
           (Re.split _PATH_SPLIT_RE (default "" ansible_module_dir))
  else [].

(** The reading of the specification: cut the text at every comma and
    colon, then trim each piece. *)
Definition split_and_trim (s : string) : list string :=
  map (λ pth, PyStr.strip (PyStr.of_chars pth))
      (PyStr.cut_at is_path_sep (PyStr.chars s) []).

(** ** The operating system

    A file-system entry is a regular file with its text or a directory.
    Entries are keyed by their absolute, normalised path, given as the
    list of its components (the root is [[]] and is always a directory);
    there are no symbolic links.  [locked] lists the entries the process
    has no permission to remove or overwrite. *)

Inductive entry :=
| File (content : string)
| Dir.

Global Instance entry_eq_dec : EqDecision entry.
Proof. solve_decision. Defined.

Record World := {
  fs : gmap (list string) entry;
  locked : gset (list string);
  cwd : list string;
  (** [os.environ] *)
  environ : gmap string string;
  (** the home directories of the password database, and the one of the
      user running the process *)
  passwd : gmap string string;
  login_home : string;
  (** [sys.prefix] *)
  sys_prefix : string;
  (** [elasticluster.log.level] *)
  log_level : Z;
  (** the external tool: [ansible_playbook n cmd env] is the exit code of
      [ansible-playbook] when it is launched with the command line [cmd]
      and the environment [env] after [n] earlier launches, [None] when it
      cannot be executed *)
  ansible_playbook : nat → list string → gmap string string → option Z;
  (** the child processes launched so far, oldest first *)
  calls : list (list string * gmap string string);
}.

Definition set_fs (f : gmap (list string) entry → gmap (list string) entry)
  (w : World) : World :=
  {| fs := f (fs w); locked := locked w; cwd := cwd w; environ := environ w;
     passwd := passwd w; login_home := login_home w;
     sys_prefix := sys_prefix w; log_level := log_level w;
     ansible_playbook := ansible_playbook w; calls := calls w |}.

Definition add_call (c : list string * gmap string string) (w : World)
  : World :=
  {| fs := fs w; locked := locked w; cwd := cwd w; environ := environ w;
     passwd := passwd w; login_home := login_home w;
     sys_prefix := sys_prefix w; log_level := log_level w;
     ansible_playbook := ansible_playbook w; calls := calls w ++ [c] |}.

Definition set_environ (env : gmap string string) (w : World) : World :=
  {| fs := fs w; locked := locked w; cwd := cwd w; environ := env;
     passwd := passwd w; login_home := login_home w;
     sys_prefix := sys_prefix w; log_level := log_level w;
     ansible_playbook := ansible_playbook w; calls := calls w |}.

(** *** Exceptions and the monad of effects *)

Inductive exn :=
| AnsibleError (msg : string)
| OSError (msg : string)
| IOError (msg : string).

Inductive outcome (A : Type) :=
| Return (a : A)
| Raise (e : exn).
Global Arguments Return {A} a.
Global Arguments Raise {A} e.

Definition OS (A : Type) : Type := World → outcome A * World.

Definition ret {A} (a : A) : OS A := λ w, (Return a, w).

Definition raise {A} (e : exn) : OS A := λ w, (Raise e, w).

Definition bind {A B} (m : OS A) (k : A → OS B) : OS B :=
  λ w, match m w with
       | (Return a, w') => k a w'
       | (Raise e, w') => (Raise e, w')
       end.

(** Read the world without changing it. *)
Definition gets {A} (f : World → A) : OS A := λ w, (Return (f w), w).

(** [try: m  except OSError as ex: h ex]: only [OSError] is caught. *)
Definition try_except_OSError {A} (m : OS A) (h : string → OS A) : OS A :=
  λ w, match m w with
       | (Raise (OSError msg), w') => h msg w'
       | r => r
       end.

Global Instance OS_ret : MRet OS := @ret.
Global Instance OS_bind : MBind OS := λ A B k m, bind m k.

(** *** [os.path] *)

Module os_path.

(** [os.path.join(a, b)] *)
Definition join (a b : string) : string :=
  if PyStr.startswith_char "/" b then b
  else if negb (PyStr.truthy a) || PyStr.endswith_char "/" a then a +:+ b
  else a +:+ "/" +:+ b.

(** [os.path.isabs(p)] *)
Definition isabs (p : string) : bool := PyStr.startswith_char "/" p.

(** The components of a path, the text between its slashes. *)
Definition components (p : string) : list string :=
  map PyStr.of_chars
      (PyStr.cut_at (λ x, bool_decide (x = "/"%char)) (PyStr.chars p) []).

(** One step of path resolution from the directory [at_]. *)
Definition walk (at_ : list string) (c : string) : list string :=
  if bool_decide (c = "" ∨ c = ".") then at_
  else if bool_decide (c = "..") then removelast at_
  else at_ ++ [c].

(** The normalised absolute path that [p] names.  A path is looked up by
    its normal form, as [os.path.normpath] computes it: [..] cancels the
    name before it and a trailing slash is dropped without a look at the
    file system.  The kernel agrees for the paths whose directories exist;
    it does not for a path that goes through a missing directory or a
    file, such as [/srv/missing/../site.yml] or [/srv/site.yml/]. *)
Definition resolve (w : World) (p : string) : list string :=
  foldl walk (if isabs p then [] else cwd w) (components p).

Definition lookup_entry (w : World) (k : list string) : option entry :=
  match k with [] => Some Dir | _ => fs w !! k end.

(** The entry [p] names, when there is one. *)
Definition stat (w : World) (p : string) : option entry :=
  if PyStr.truthy p then lookup_entry w (resolve w p) else None.

(** [os.path.exists(p)] *)
Definition exists_ (w : World) (p : string) : bool :=
  bool_decide (is_Some (stat w p)).

(** [os.path.isfile(p)] *)
Definition isfile (w : World) (p : string) : bool :=
  match stat w p with Some (File _) => true | _ => false end.

(** [os.path.realpath(p)]; without symbolic links, the normalised
    absolute path. *)
Definition realpath (w : World) (p : string) : string :=
  "/" +:+ PyStr.join "/" (resolve w p).

End os_path.

(** *** [os], [shutil], [tempfile] and files *)

Module os.

(** [Some rest] when [k = d ++ rest]. *)
Fixpoint strip_prefix (d k : list string) : option (list string) :=
  match d, k with
  | [], _ => Some k
  | x :: d', y :: k' => if bool_decide (x = y) then strip_prefix d' k' else None
  | _ :: _, [] => None
  end.

Definition child_name (d k : list string) : option string :=
  match strip_prefix d k with Some [n] => Some n | _ => None end.

(** The names of the entries directly inside the directory [d]. *)
Definition children (w : World) (d : list string) : list string :=
  omap (child_name d) (map fst (map_to_list (fs w))).

(** [os.listdir(p)] *)
Definition listdir (p : string) : OS (list string) := λ w,
  match os_path.stat w p with
  | Some Dir => (Return (children w (os_path.resolve w p)), w)
  | _ => (Raise (OSError "listdir: not a directory"), w)
  end.

(** [os.unlink(p)] *)
Definition unlink (p : string) : OS unit := λ w,
  let k := os_path.resolve w p in
  match os_path.stat w p with
  | Some (File _) =>
      if bool_decide (k ∈ locked w)
      then (Raise (OSError "unlink: permission denied"), w)
      else (Return (), set_fs (delete k) w)
  | Some Dir => (Raise (OSError "unlink: is a directory"), w)
  | None => (Raise (OSError "unlink: no such file"), w)
  end.

(** [q] is [k] or lies below it. *)
Definition below (k q : list string) : bool :=
  match strip_prefix k q with Some _ => true | None => false end.

(** [shutil.rmtree(p)].  When an entry below [p] cannot be removed the
    error is raised; the entries removed before it are not tracked. *)
Definition rmtree (p : string) : OS unit := λ w,
  let k := os_path.resolve w p in
  match os_path.stat w p with
  | Some Dir =>
      if bool_decide (k = []) || existsb (below k) (elements (locked w))
      then (Raise (OSError "rmtree: permission denied"), w)
      else (Return (), set_fs (filter (λ kv, below k kv.1 = false)) w)
  | _ => (Raise (OSError "rmtree: not a directory"), w)
  end.

(** The non-empty prefixes of [k], shortest first. *)
Definition ancestors_and_self (k : list string) : list (list string) :=
  map (λ n, take n k) (seq 1 (length k)).

(** [os.makedirs(p)]: the leaf must be new, and whatever exists above it
    must be a directory. *)
Definition makedirs (p : string) : OS unit := λ w,
  let k := os_path.resolve w p in
  if os_path.exists_ w p || negb (PyStr.truthy p)
  then (Raise (OSError "makedirs: file exists"), w)
  else if bool_decide (Forall (λ q, fs w !! q = None ∨ fs w !! q = Some Dir)
                              (ancestors_and_self k))
  then (Return (),
        set_fs (λ m, foldl (λ m q, if m !! q is None then <[q := Dir]> m
                                   else m) m (ancestors_and_self k)) w)
  else (Raise (OSError "makedirs: not a directory"), w).

(** [tempfile.mkdtemp()]: a new directory under [/tmp], with a name that
    is not taken there. *)
Definition mkdtemp : OS string := λ w,
  match os_path.lookup_entry w ["tmp"] with
  | Some Dir =>
      let n := fresh (children w ["tmp"]) in
      (Return ("/tmp/" +:+ n), set_fs (insert ["tmp"; n] Dir) w)
  | _ => (Raise (IOError "mkdtemp: no usable temporary directory"), w)
  end.

(** [fd = open(p, 'w+'); fd.write(...); fd.close()]: the file is created
    or truncated, then holds [content].  Opening fails with [IOError]
    when the directory is missing, when [p] is a directory, and when the
    process may not write the file. *)
Definition write_file (p content : string) : OS unit := λ w,
  let k := os_path.resolve w p in
  if negb (PyStr.truthy p) || bool_decide (k = [])
  then (Raise (IOError "open: is a directory"), w)
  else match os_path.lookup_entry w (removelast k), fs w !! k with
       | Some Dir, Some Dir => (Raise (IOError "open: is a directory"), w)
       | Some Dir, _ =>
           if bool_decide (k ∈ locked w)
           then (Raise (IOError "open: permission denied"), w)
           else (Return (), set_fs (insert k (File content)) w)
       | _, _ => (Raise (IOError "open: no such directory"), w)
       end.

(** [subprocess.call(cmd, env=env)]: run the external tool and wait for
    its exit code, which may differ from one launch to the next. *)
Definition call (cmd : list string) (env : gmap string string) : OS Z := λ w,
  match ansible_playbook w (length (calls w)) cmd env with
  | Some rc => (Return rc, add_call (cmd, env) w)
  | None => (Raise (OSError "call: cannot execute"), w)
  end.

End os.

(** *** [os.path.expanduser] and [os.path.expandvars] *)

Module posixpath.

Fixpoint take_until (stop : ascii → bool) (s : list ascii) : list ascii :=
  match s with
  | x :: s' => if stop x then [] else x :: take_until stop s'
  | [] => []
  end.

Fixpoint drop_until (stop : ascii → bool) (s : list ascii) : list ascii :=
  match s with
  | x :: s' => if stop x then s else drop_until stop s'
  | [] => []
  end.

Definition is_slash (x : ascii) : bool := bool_decide (x = "/"%char).

(** [s.rstrip('/')] *)
Definition rstrip_slash (s : string) : string :=
  PyStr.of_chars (rev (drop_until (λ x, negb (is_slash x)) (rev (PyStr.chars s)))).

(** [os.path.expanduser(path)]: a leading [~] or [~user] becomes that
    user's home directory; an unknown user leaves the path as it is. *)
Definition expanduser (w : World) (path : string) : string :=
  if negb (PyStr.startswith_char "~" path) then path
  else
    let after := tail (PyStr.chars path) in
    let user := take_until is_slash after in
    let rest := drop_until is_slash after in
    let userhome :=
      match user with
      | [] => Some (default (login_home w) (environ w !! "HOME"))
      | _ => passwd w !! PyStr.of_chars user
      end in
    match userhome with
    | None => path
    | Some home =>
        let r := rstrip_slash home +:+ PyStr.of_chars rest in
        if PyStr.truthy r then r else "/"
    end.

(** The class [\w] of Python 2 byte strings. *)
Definition is_word (x : ascii) : bool :=
  let n := nat_of_ascii x in
  ((48 <=? n) && (n <=? 57) || (65 <=? n) && (n <=? 90)
   || (97 <=? n) && (n <=? 122) || (n =? 95))%nat.

(** A match of [\w+|\{[^}]*\}] at the start of [s]: the variable name,
    the text matched, and what follows it. *)
Definition var_at (s : list ascii)
  : option (list ascii * list ascii * list ascii) :=
  match s with
  | x :: s' =>
      if is_word x
      then Some (take_until (λ y, negb (is_word y)) s,
                 take_until (λ y, negb (is_word y)) s,
                 drop_until (λ y, negb (is_word y)) s)
      else if bool_decide (x = "{"%char)
      then match drop_until (λ y, bool_decide (y = "}"%char)) s' with
           | close :: rest =>
               let body := take_until (λ y, bool_decide (y = "}"%char)) s' in
               Some (body, x :: body ++ [close], rest)
           | [] => None
           end
      else None
  | [] => None
  end.

(** The loop of [expandvars]: a variable of the environment is replaced
    by its value, which is not expanded again; any other one is kept. *)
Fixpoint expandvars_go (env : gmap string string) (fuel : nat)
  (s : list ascii) : list ascii :=
  match fuel with
  | O => s
  | S fuel' =>
      match s with
      | [] => []
      | x :: s' =>
          if bool_decide (x = "$"%char)
          then match var_at s' with
               | Some (name, text, rest) =>
                   match env !! PyStr.of_chars name with
                   | Some v => PyStr.chars v ++ expandvars_go env fuel' rest
                   | None => x :: text ++ expandvars_go env fuel' rest
                   end
               | None => x :: expandvars_go env fuel' s'
               end
          else x :: expandvars_go env fuel' s'
      end
  end.

(** [os.path.expandvars(path)] *)
Definition expandvars (w : World) (path : string) : string :=
  if negb (PyStr.contains_char "$" path) then path
  else PyStr.of_chars
         (expandvars_go (environ w) (length (PyStr.chars path))
                        (PyStr.chars path)).

End posixpath.

(** ** The collaborators: nodes and clusters *)

Module Node.
Record t := {
  kind : string;
  name : string;
  (** [None] until an address is known *)
  preferred_ip : option string;
  image_user : string;
}.
End Node.

Module Cluster.
Record t := {
  name : string;
  get_all_nodes : list Node.t;
  user_key_private : string;
}.
End Cluster.

(** ** The provider *)

(** The attributes of an [AnsibleSetupProvider] object. *)
Record AnsibleSetupProvider := {
  groups : gmap string (list string);
  _playbook_path : string;
  environment : gmap string (gmap string string);
  _storage_path : string;
  _storage_path_tmp : bool;
  _sudo_user : string;
  _sudo : bool;
  ssh_pipelining : bool;
  _ansible_module_dir : list string;
}.

Definition set_storage_path (d : string) (self : AnsibleSetupProvider)
  : AnsibleSetupProvider :=
  {| groups := groups self; _playbook_path := _playbook_path self;
     environment := environment self; _storage_path := d;
     _storage_path_tmp := _storage_path_tmp self;
     _sudo_user := _sudo_user self; _sudo := _sudo self;
     ssh_pipelining := ssh_pipelining self;
     _ansible_module_dir := _ansible_module_dir self |}.

Definition inventory_file_ending : string := "ansible-inventory".

(** [__init__] (lines 80-116); an argument left out or [None] is [None]
    here. *)
Definition __init__ (groups : gmap string (list string))
  (playbook_path : option string)
  (environment_vars : gmap string (gmap string string))
  (storage_path : option string) (sudo : bool) (sudo_user : string)
  (ansible_module_dir : option string) (ssh_pipelining : bool)
  : OS AnsibleSetupProvider :=
  playbook ←
    (if negb (PyStr.truthy_opt playbook_path)
     then gets (λ w,
            os_path.join
              (os_path.join (sys_prefix w)
                 "share/elasticluster/providers/ansible-playbooks")
              "site.yml")
     else gets (λ w,
            posixpath.expandvars w
              (posixpath.expanduser w (default "" playbook_path))));
  '(storage, tmp) ←
    (if PyStr.truthy_opt storage_path
     then
       storage ← gets (λ w,
            posixpath.expandvars w
              (posixpath.expanduser w (default "" storage_path)));
       present ← gets (λ w, os_path.exists_ w storage);
       (if negb present then os.makedirs storage else ret ());;
       ret (storage, false)
     else
       storage ← os.mkdtemp;
       ret (storage, true));
  ret {| groups := groups; _playbook_path := playbook;
          environment := environment_vars; _storage_path := storage;
          _storage_path_tmp := tmp; _sudo_user := sudo_user; _sudo := sudo;
          ssh_pipelining := ssh_pipelining;
          _ansible_module_dir := parse_ansible_module_dir ansible_module_dir |}.

(** *** The inventory builder *)

(** A host entry: [(node.name, public_ip, ' '.join(extra_vars))]. *)
Definition host : Type := string * option string * string.

(** Lines 230-233. *)
Definition extra_vars (self : AnsibleSetupProvider) (node : Node.t)
  : list string :=
  ["ansible_ssh_user=" +:+ Node.image_user node] ++
  match environment self !! Node.kind node with
  | Some vars => map (λ kv, kv.1 +:+ "=" +:+ kv.2) (map_to_list vars)
  | None => []
  end.

(** Lines 235-239, the body of the loop over the groups of a node. *)
Definition add_host (node : Node.t) (vars : list string)
  (inventory : gmap string (list host)) (group : string)
  : gmap string (list host) :=
  let inventory :=
    if bool_decide (group ∉ dom inventory)
    then <[group := []]> inventory else inventory in
  let public_ip := Node.preferred_ip node in
  <[group := default [] (inventory !! group)
             ++ [(Node.name node, public_ip, PyStr.join " " vars)]]> inventory.

(** Lines 229-239, the body of the loop over the nodes. *)
Definition add_node (self : AnsibleSetupProvider)
  (inventory : gmap string (list host)) (node : Node.t)
  : gmap string (list host) :=
  match groups self !! Node.kind node with
  | Some node_groups =>
      foldl (add_host node (extra_vars self node)) inventory node_groups
  | None => inventory
  end.

(** Lines 227-239: the inventory document of a cluster. *)
Definition build_document (self : AnsibleSetupProvider) (cluster : Cluster.t)
  : gmap string (list host) :=
  foldl (add_node self) ∅ (Cluster.get_all_nodes cluster).

(** ["%s ansible_ssh_host=%s %s\n" % host] *)
Definition hostline (h : host) : string :=
  h.1.1 +:+ " ansible_ssh_host=" +:+ PyStr.str_opt h.1.2 +:+ " " +:+ h.2
  +:+ PyStr.nl.

(** Lines 255-260: what is written for one section. *)
Definition section_text (item : string * list host) : string :=
  (PyStr.nl +:+ "[" +:+ item.1 +:+ "]" +:+ PyStr.nl) +:+
  (if bool_decide (item.2 ≠ []) then PyStr.concat (map hostline item.2)
   else "").

(** Lines 254-260: the text of the inventory file. *)
Definition inventory_text (inventory : gmap string (list host)) : string :=
  PyStr.concat (map section_text (map_to_list inventory)).

(** ['%s.%s' % (AnsibleSetupProvider.inventory_file_ending, cluster.name)] *)
Definition inventory_fname (cluster : Cluster.t) : string :=
  inventory_file_ending +:+ "." +:+ Cluster.name cluster.

(** [_build_inventory] (lines 221-267).  The result is [self] after the
    call and the returned value. *)
Definition _build_inventory (self : AnsibleSetupProvider)
  (cluster : Cluster.t) : OS (AnsibleSetupProvider * option string) :=
  let inventory := build_document self cluster in
  if bool_decide (inventory ≠ ∅) then
    self ←
      (if _storage_path_tmp self
       then if negb (PyStr.truthy (_storage_path self))
            then d ← os.mkdtemp; ret (set_storage_path d self)
            else ret self
       else ret self);
    let fname := inventory_fname cluster in
    let inventory_path := os_path.join (_storage_path self) fname in
    os.write_file inventory_path (inventory_text inventory);;
    ret (self, Some inventory_path)
  else
    ret (self, None).

(** *** The invocation of [ansible-playbook] *)

(** [logging.WARNING] *)
Definition logging_WARNING : Z := 30.

(** Lines 147-151: the mapping of [ansible_env] after the five
    assignments. *)
Definition ansible_env (w : World) (private_key_file : string)
  : gmap string string :=
  let env := environ w in
  let env := <["ANSIBLE_FORKS" := "10"]> env in
  let env := <["ANSIBLE_HOST_KEY_CHECKING" := "no"]> env in
  let env := <["ANSIBLE_PRIVATE_KEY_FILE" := private_key_file]> env in
  let env := <["ANSIBLE_SSH_PIPELINING" := "yes"]> env in
  let env := <["ANSIBLE_TIMEOUT" := "120"]> env in
  env.

(** Lines 145-151.  [copy(os.environ)] makes a new object over the
    mapping of [os.environ] itself, not over a copy of it: the assignments
    to [ansible_env] are assignments to the environment of the process,
    and [ansible_env] names that environment from then on. *)
Definition set_ansible_env (private_key_file : string) : OS unit := λ w,
  (Return (), set_environ (ansible_env w private_key_file) w).

(** Line 201; [/] on two Python 2 integers is the floor division. *)
Definition verbosity (w : World) : Z :=
  Z.min 3 ((logging_WARNING - log_level w) / 10).

(** Lines 183-203: the command line. *)
Definition command_line (self : AnsibleSetupProvider) (w : World)
  (inventory_path : string) : list string :=
  let cmd := ["ansible-playbook";
              os_path.realpath w (_playbook_path self);
              "--inventory=" +:+ inventory_path] in
  let cmd :=
    if _sudo self
    then cmd ++ ["--sudo"; "--sudo-user=" +:+ _sudo_user self]
    else cmd in
  if bool_decide (verbosity w > 0)
  then cmd ++ ["-" +:+ PyStr.repeat_char "v" (Z.to_nat (verbosity w))]
  else cmd.

(** [setup_cluster] from line 133 on, for the value [inventory_path] that
    [_build_inventory] returned. *)
Definition setup_with_inventory (self : AnsibleSetupProvider)
  (cluster : Cluster.t) (inventory_path : option string) : OS bool :=
  let private_key_file := Cluster.user_key_private cluster in
  set_ansible_env private_key_file;;
  if negb (PyStr.truthy_opt inventory_path) then ret true
  else
    let inventory_path := default "" inventory_path in
    inventory_found ← gets (λ w, os_path.exists_ w inventory_path);
    if negb inventory_found
    then raise (AnsibleError ("inventory file `" +:+ inventory_path
                              +:+ "` could not be found"))
    else
      playbook_found ← gets (λ w, os_path.exists_ w (_playbook_path self));
      if negb playbook_found
      then raise (AnsibleError ("playbook `" +:+ _playbook_path self
                                +:+ "` could not be found"))
      else
        playbook_is_file ← gets (λ w, os_path.isfile w (_playbook_path self));
        if negb playbook_is_file
        then raise (AnsibleError ("playbook `" +:+ _playbook_path self
                                  +:+ "` is not a file"))
        else
          cmd ← gets (λ w, command_line self w inventory_path);
          ansible_env ← gets environ;
          rc ← os.call cmd ansible_env;
          if bool_decide (rc = 0) then ret true else ret false.

(** [setup_cluster] (lines 118-219).  The result is [self] after the call
    and the returned value. *)
Definition setup_cluster (self : AnsibleSetupProvider) (cluster : Cluster.t)
  : OS (AnsibleSetupProvider * bool) :=
  '(self, inventory_path) ← _build_inventory self cluster;
  ok ← setup_with_inventory self cluster inventory_path;
  ret (self, ok).

(** *** The removal of the inventory file *)

(** [cleanup] (lines 269-289). *)
Definition cleanup (self : AnsibleSetupProvider) (cluster : Cluster.t)
  : OS unit :=
  storage_found ← gets (λ w, os_path.exists_ w (_storage_path self));
  if PyStr.truthy (_storage_path self) && storage_found then
    let fname := inventory_fname cluster in
    let inventory_path := os_path.join (_storage_path self) fname in
    inventory_found ← gets (λ w, os_path.exists_ w inventory_path);
    if (inventory_found : bool) then
      try_except_OSError
        (os.unlink inventory_path;;
         if _storage_path_tmp self then
           names ← os.listdir (_storage_path self);
           if bool_decide (length names = 0%nat)
           then os.rmtree (_storage_path self)
           else ret ()
         else ret ())
        (λ ex, ret ())
    else ret ()
  else ret ().

(** *** Restoring a pickled provider *)

(** The value of an attribute in the [__dict__] of a provider. *)
Inductive pyval :=
| PyBool (b : bool)
| PyString (s : string)
| PyStrings (l : list string)
| PyGroups (m : gmap string (list string))
| PyEnvironment (m : gmap string (gmap string string)).

(** [__setstate__] (lines 291-296); the result is [self.__dict__] after
    the call. *)
Definition __setstate__ (state : gmap string pyval) : gmap string pyval :=
  let __dict__ := state in
  if bool_decide ("ssh_pipelining" ∉ dom state)
  then <["ssh_pipelining" := PyBool true]> __dict__
  else __dict__.

(** [self.__dict__] of a provider, as the pickle module saves it. *)
Definition attributes (self : AnsibleSetupProvider) : gmap string pyval :=
  {[ "groups" := PyGroups (groups self);
     "_playbook_path" := PyString (_playbook_path self);
     "environment" := PyEnvironment (environment self);
     "_storage_path" := PyString (_storage_path self);
     "_storage_path_tmp" := PyBool (_storage_path_tmp self);
     "_sudo_user" := PyString (_sudo_user self);
     "_sudo" := PyBool (_sudo self);
     "ssh_pipelining" := PyBool (ssh_pipelining self);
     "_ansible_module_dir" := PyStrings (_ansible_module_dir self) ]}.

(** The provider whose attributes are those of [d], when [d] has them
    all, each of its type. *)
Definition provider_of (d : gmap string pyval) : option AnsibleSetupProvider :=
  match d !! "groups", d !! "_playbook_path", d !! "environment",
        d !! "_storage_path", d !! "_storage_path_tmp", d !! "_sudo_user",
        d !! "_sudo", d !! "ssh_pipelining", d !! "_ansible_module_dir" with
  | Some (PyGroups g), Some (PyString pb), Some (PyEnvironment e),
    Some (PyString sp), Some (PyBool tmp), Some (PyString su),
    Some (PyBool sudo), Some (PyBool pipe), Some (PyStrings md) =>
      Some {| groups := g; _playbook_path := pb; environment := e;
              _storage_path := sp; _storage_path_tmp := tmp;
              _sudo_user := su; _sudo := sudo; ssh_pipelining := pipe;
              _ansible_module_dir := md |}
  | _, _, _, _, _, _, _, _, _ => None
  end.

(** ** The vocabulary of the properties *)

(** A file name that is one component of a path: it has no slash and is
    none of the empty name, [.] and [..]. *)
Definition plain_name (n : string) : Prop :=
  PyStr.contains_char "/" n = false ∧ n ≠ "" ∧ n ≠ "." ∧ n ≠ "..".

(** The operations on files leave the processes launched so far, the
    external tool and the process state as they are. *)
Definition same_process (w w' : World) : Prop :=
  ∃ f, w' = set_fs f w.

(** The command and the environment [setup_cluster] gives to
    [subprocess.call]. *)
Definition launched (self : AnsibleSetupProvider) (cluster : Cluster.t)
  (path : string) (w : World) : list string * gmap string string :=
  (command_line self w path,
   ansible_env w (Cluster.user_key_private cluster)).

(** The world after the assignments of lines 147-151: the five variables
    are set in the environment of the process. *)
Definition with_ansible_env (cluster : Cluster.t) (w : World) : World :=
  set_environ (ansible_env w (Cluster.user_key_private cluster)) w.

(** The three checks of lines 165-178. *)
Definition paths_ok (self : AnsibleSetupProvider) (path : string) (w : World)
  : bool :=
  os_path.exists_ w path && os_path.exists_ w (_playbook_path self)
  && os_path.isfile w (_playbook_path self).

(** Lines 183-195: the command line before the verbosity flag. *)
Definition command_without_verbosity (self : AnsibleSetupProvider)
  (w : World) (inventory_path : string) : list string :=
  ["ansible-playbook"; os_path.realpath w (_playbook_path self);
   "--inventory=" +:+ inventory_path]
  ++ (if _sudo self then ["--sudo"; "--sudo-user=" +:+ _sudo_user self]
      else []).

Definition set_ssh_pipelining (flag : bool) (self : AnsibleSetupProvider)
  : AnsibleSetupProvider :=
  {| groups := groups self; _playbook_path := _playbook_path self;
     environment := environment self; _storage_path := _storage_path self;
     _storage_path_tmp := _storage_path_tmp self;
     _sudo_user := _sudo_user self; _sudo := _sudo self;
     ssh_pipelining := flag;
     _ansible_module_dir := _ansible_module_dir self |}.

Definition outcome_map {A B} (f : A → B) (r : outcome A) : outcome B :=
  match r with Return a => Return (f a) | Raise e => Raise e end.

(** The host entry of a node. *)
Definition host_of (self : AnsibleSetupProvider) (node : Node.t) : host :=
  (Node.name node, Node.preferred_ip node,
   PyStr.join " " (extra_vars self node)).

(** The host entries of a group: one for each node and each time the
    group is listed for the node's kind, in the order of the nodes. *)
Definition hosts_of_group (self : AnsibleSetupProvider)
  (nodes : list Node.t) (group : string) : list host :=
  flat_map (λ node,
     flat_map (λ g, if bool_decide (group = g) then [host_of self node] else [])
              (default [] (groups self !! Node.kind node)))
    nodes.

(** The inventory path of a cluster, and its key in the file system. *)
Definition inventory_path_of (self : AnsibleSetupProvider)
  (cluster : Cluster.t) : string :=
  os_path.join (_storage_path self) (inventory_fname cluster).

(** The three ways a [cleanup] can end: it removes nothing, it removes
    the inventory file only, or it also removes the storage directory,
    which is temporary and was found empty. *)
Inductive cleanup_effect (self : AnsibleSetupProvider) (cluster : Cluster.t)
  (w : World) : World → Prop :=
| cleanup_nothing :
    PyStr.truthy (_storage_path self) = false
    ∨ os_path.exists_ w (_storage_path self) = false
    ∨ os_path.stat w (inventory_path_of self cluster) = None
    ∨ os_path.stat w (inventory_path_of self cluster) = Some Dir
    ∨ os_path.resolve w (inventory_path_of self cluster) ∈ locked w →
    cleanup_effect self cluster w w
| cleanup_file c :
    PyStr.truthy (_storage_path self) = true →
    os_path.exists_ w (_storage_path self) = true →
    os_path.stat w (inventory_path_of self cluster) = Some (File c) →
    os_path.resolve w (inventory_path_of self cluster) ∉ locked w →
    cleanup_effect self cluster w
      (set_fs (delete (os_path.resolve w (inventory_path_of self cluster))) w)
| cleanup_directory c :
    PyStr.truthy (_storage_path self) = true →
    os_path.exists_ w (_storage_path self) = true →
    os_path.stat w (inventory_path_of self cluster) = Some (File c) →
    os_path.resolve w (inventory_path_of self cluster) ∉ locked w →
    _storage_path_tmp self = true →
    let w1 := set_fs (delete (os_path.resolve w (inventory_path_of self cluster)))
                     w in
    os_path.stat w1 (_storage_path self) = Some Dir →
    os_path.resolve w (_storage_path self) ≠ [] →
    os.children w1 (os_path.resolve w (_storage_path self)) = [] →
    cleanup_effect self cluster w
      (set_fs (filter (λ kv, os.below (os_path.resolve w (_storage_path self))
                                      kv.1 = false)) w1).

(** The cluster with other nodes, and the provider with other
    environment overrides. *)
Definition set_nodes (nodes : list Node.t) (cluster : Cluster.t) : Cluster.t :=
  {| Cluster.name := Cluster.name cluster; Cluster.get_all_nodes := nodes;
     Cluster.user_key_private := Cluster.user_key_private cluster |}.

Definition set_environment (env : gmap string (gmap string string))
  (self : AnsibleSetupProvider) : AnsibleSetupProvider :=
  {| groups := groups self; _playbook_path := _playbook_path self;
     environment := env; _storage_path := _storage_path self;
     _storage_path_tmp := _storage_path_tmp self;
     _sudo_user := _sudo_user self; _sudo := _sudo self;
     ssh_pipelining := ssh_pipelining self;
     _ansible_module_dir := _ansible_module_dir self |}.

(** ** Example data

    The data of the worked examples at the end. *)

(** A machine with a playbook in [/srv], a temporary storage directory
    [/tmp/ec] shared by the clusters, and an [ansible-playbook] that exits
    with the code [rc], at the log level [level]; [ex_world] is at the
    level [INFO]. *)
Definition ex_world_at (level rc : Z) : World :=
  {| fs := {[ ["srv"] := Dir; ["srv"; "site.yml"] := File "- hosts: all";
              ["srv"; "inventories"] := Dir;
              ["tmp"] := Dir; ["tmp"; "ec"] := Dir ]};
     locked := ∅; cwd := ["srv"];
     environ := {[ "HOME" := "/home/ec" ]}; passwd := ∅;
     login_home := "/home/ec"; sys_prefix := "/usr"; log_level := level;
     ansible_playbook := λ _ _ _, Some rc; calls := [] |}.

Definition ex_world (rc : Z) : World := ex_world_at 20 rc.

Definition ex_node : Node.t :=
  {| Node.kind := "frontend"; Node.name := "n1";
     Node.preferred_ip := Some "10.0.0.1"; Node.image_user := "ubuntu" |}.

Definition ex_cluster (name : string) : Cluster.t :=
  {| Cluster.name := name; Cluster.get_all_nodes := [ex_node];
     Cluster.user_key_private := "/home/ec/.ssh/id_rsa" |}.

Definition ex_provider (groups : gmap string (list string))
  : AnsibleSetupProvider :=
  {| groups := groups; _playbook_path := "/srv/site.yml"; environment := ∅;
     _storage_path := "/tmp/ec"; _storage_path_tmp := true;
     _sudo_user := "root"; _sudo := true; ssh_pipelining := false;
     _ansible_module_dir := [] |}.

Definition ex_inventory : string :=
  PyStr.nl +:+ "[web]" +:+ PyStr.nl
  +:+ "n1 ansible_ssh_host=10.0.0.1 ansible_ssh_user=ubuntu" +:+ PyStr.nl.

(** The world after the inventories of the clusters [a] and [b] were
    written to the shared storage directory. *)
Definition ex_world_ab : World :=
  (_build_inventory (ex_provider {[ "frontend" := ["web"] ]}) (ex_cluster "b")
     (_build_inventory (ex_provider {[ "frontend" := ["web"] ]})
                       (ex_cluster "a") (ex_world 0)).2).2.

(** A provider with a storage directory of the user. *)
Definition ex_user_provider : AnsibleSetupProvider :=
  {| groups := {[ "frontend" := ["web"] ]};
     _playbook_path := "/srv/site.yml"; environment := ∅;
     _storage_path := "/srv/inventories"; _storage_path_tmp := false;
     _sudo_user := "root"; _sudo := true; ssh_pipelining := true;
     _ansible_module_dir := [] |}.


(** The same machine with an [ansible-playbook] that exits with the code
    2 the first time it is launched and with 0 from then on. *)
Definition ex_world_retry : World :=
  {| fs := fs (ex_world 0); locked := locked (ex_world 0);
     cwd := cwd (ex_world 0); environ := environ (ex_world 0);
     passwd := passwd (ex_world 0); login_home := login_home (ex_world 0);
     sys_prefix := sys_prefix (ex_world 0); log_level := log_level (ex_world 0);
     ansible_playbook := λ n _ _, Some (if n is O then 2 else 0);
     calls := [] |}.

(** * Properties *)

(** ** Trimming and splitting *)

Section Trimming.

Local Abbreviation ws := (λ x : ascii, Ascii.is_space x = true).

Lemma lstrip_app_ws (w s : list ascii) :
  Forall ws w → PyStr.lstrip_chars (w ++ s) = PyStr.lstrip_chars s.
Proof.
  induction 1 as [|x w Hx _ IH]; simpl; [done|]. by rewrite Hx.
Qed.

Lemma lstrip_all_ws (w : list ascii) :
  Forall ws w → PyStr.lstrip_chars w = [].
Proof. induction 1 as [|x w Hx _ IH]; simpl; [done|]. by rewrite Hx. Qed.

Lemma lstrip_split (s : list ascii) :
  ∃ w, Forall ws w ∧ s = w ++ PyStr.lstrip_chars s.
Proof.
  induction s as [|x s [w [Hw Hs]]]; simpl.
  - by exists [].
  - destruct (Ascii.is_space x) eqn:Hx.
    + exists (x :: w). split; [by constructor|]. simpl. by f_equal.
    + by exists [].
Qed.

Lemma lstrip_head (s : list ascii) x r :
  PyStr.lstrip_chars s = x :: r → Ascii.is_space x = false.
Proof.
  induction s as [|y s IH]; simpl; [done|].
  destruct (Ascii.is_space y) eqn:Hy; [done|]. by intros [= <- _].
Qed.

Lemma lstrip_fixed (s : list ascii) :
  match s with [] => True | x :: _ => Ascii.is_space x = false end →
  PyStr.lstrip_chars s = s.
Proof. destruct s as [|x s]; simpl; [done|]. by intros ->. Qed.

Lemma lstrip_idemp (s : list ascii) :
  PyStr.lstrip_chars (PyStr.lstrip_chars s) = PyStr.lstrip_chars s.
Proof.
  apply lstrip_fixed. destruct (PyStr.lstrip_chars s) eqn:E; [done|].
  by eapply lstrip_head.
Qed.

Lemma lstrip_length (s : list ascii) :
  (length (PyStr.lstrip_chars s) ≤ length s)%nat.
Proof.
  destruct (lstrip_split s) as [w [_ Hs]]. rewrite Hs at 2.
  rewrite length_app. lia.
Qed.

Lemma strip_app_ws (w1 s w2 : list ascii) :
  Forall ws w1 → Forall ws w2 →
  PyStr.strip_chars (w1 ++ s ++ w2) = PyStr.strip_chars s.
Proof.
  intros H1 H2. unfold PyStr.strip_chars. f_equal.
  rewrite (lstrip_app_ws w1) by done.
  destruct (lstrip_split s) as [v [Hv Hs]].
  destruct (PyStr.lstrip_chars s) as [|x r] eqn:E.
  - rewrite app_nil_r in Hs. subst v.
    by rewrite (lstrip_app_ws s), (lstrip_all_ws w2).
  - assert (PyStr.lstrip_chars (s ++ w2) = (x :: r) ++ w2) as ->.
    { rewrite Hs at 1. rewrite <-app_assoc, lstrip_app_ws by done.
      simpl. by rewrite (lstrip_head _ _ _ E). }
    rewrite rev_app_distr. apply lstrip_app_ws. by apply Forall_rev.
Qed.

Lemma strip_chars_idemp (s : list ascii) :
  PyStr.strip_chars (PyStr.strip_chars s) = PyStr.strip_chars s.
Proof.
  unfold PyStr.strip_chars. f_equal.
  set (a := PyStr.lstrip_chars s).
  destruct (lstrip_split (rev a)) as [w [Hw Ha]].
  set (b := PyStr.lstrip_chars (rev a)) in *.
  assert (PyStr.lstrip_chars (rev b) = rev b) as ->.
  { apply lstrip_fixed. destruct (rev b) as [|x t] eqn:Eb; [done|].
    assert (a = (x :: t) ++ rev w) as Hax.
    { rewrite <-Eb, <-rev_app_distr, <-Ha. by rewrite rev_involutive. }
    apply (lstrip_head s x (t ++ rev w)). exact Hax. }
  rewrite rev_involutive. apply lstrip_idemp.
Qed.

Lemma strip_of_chars (l : list ascii) :
  PyStr.strip (PyStr.of_chars l) = PyStr.of_chars (PyStr.strip_chars l).
Proof.
  unfold PyStr.strip, PyStr.chars, PyStr.of_chars.
  by rewrite String.list_ascii_of_string_of_list_ascii.
Qed.

Lemma strip_idemp (s : string) : PyStr.strip (PyStr.strip s) = PyStr.strip s.
Proof. unfold PyStr.strip at 2. by rewrite strip_of_chars, strip_chars_idemp. Qed.

Lemma ws_not_sep x : Ascii.is_space x = true → is_path_sep x = false.
Proof.
  intros Hx. unfold is_path_sep.
  destruct (bool_decide _) eqn:E1; [apply bool_decide_eq_true in E1; by subst|].
  destruct (bool_decide (x = ":"%char)) eqn:E2; [|done].
  apply bool_decide_eq_true in E2; by subst.
Qed.

Lemma cut_at_app_ws (w s cur : list ascii) :
  Forall ws w →
  PyStr.cut_at is_path_sep (w ++ s) cur = PyStr.cut_at is_path_sep s (rev w ++ cur).
Proof.
  intros Hw. revert cur. induction Hw as [|x w Hx _ IH]; intros cur; simpl; [done|].
  rewrite (ws_not_sep _ Hx), IH. by rewrite <-app_assoc.
Qed.

(** The matcher, unfolded once at a starred class. *)
Lemma match_at_star cls p s :
  Re.match_at (Re.Star cls :: p) s =
  match s with
  | x :: s' =>
      if cls x
      then match Re.match_at (Re.Star cls :: p) s' with
           | Some r => Some r
           | None => Re.match_at p s
           end
      else Re.match_at p s
  | [] => Re.match_at p []
  end.
Proof. by destruct s. Qed.

Lemma match_trailing_ws s :
  Re.match_at [Re.Star Ascii.is_space] s = Some (PyStr.lstrip_chars s).
Proof.
  induction s as [|x s IH]; [done|].
  rewrite match_at_star, IH. simpl. by destruct (Ascii.is_space x).
Qed.

Lemma match_sep_ws s :
  Re.match_at [Re.One is_path_sep; Re.Star Ascii.is_space] s =
  match s with
  | x :: r => if is_path_sep x then Some (PyStr.lstrip_chars r) else None
  | [] => None
  end.
Proof.
  destruct s as [|x r]; [done|].
  change (Re.match_at [Re.One is_path_sep; Re.Star Ascii.is_space] (x :: r))
    with (if is_path_sep x then Re.match_at [Re.Star Ascii.is_space] r else None).
  by rewrite match_trailing_ws.
Qed.

(** A match of [_PATH_SPLIT_RE] skips the blanks, takes one separator and
    skips the blanks that follow it. *)
Lemma match_PATH_SPLIT_RE s :
  Re.match_at _PATH_SPLIT_RE s =
  match PyStr.lstrip_chars s with
  | x :: r => if is_path_sep x then Some (PyStr.lstrip_chars r) else None
  | [] => None
  end.
Proof.
  unfold _PATH_SPLIT_RE. induction s as [|x s IH].
  - by rewrite match_at_star, match_sep_ws.
  - rewrite match_at_star, IH, match_sep_ws. simpl.
    destruct (Ascii.is_space x) eqn:Hx; [|done].
    rewrite (ws_not_sep _ Hx).
    destruct (PyStr.lstrip_chars s) as [|y r]; [done|].
    by destruct (is_path_sep y).
Qed.

Lemma split_fuel_step p n x s cur :
  Re.split_fuel p (S n) (x :: s) cur =
  match Re.match_at p (x :: s) with
  | Some rest => rev cur :: Re.split_fuel p n rest []
  | None => Re.split_fuel p n s (x :: cur)
  end.
Proof. done. Qed.

Lemma split_fuel_cut (n : nat) : ∀ (s cur w : list ascii),
  (length s ≤ n)%nat → Forall ws w →
  map PyStr.strip_chars (Re.split_fuel _PATH_SPLIT_RE n s cur) =
  map PyStr.strip_chars (PyStr.cut_at is_path_sep s (cur ++ w)).
Proof.
  induction n as [|n IH]; intros s cur w Hn Hw.
  - destruct s; [|simpl in Hn; lia]. simpl.
    rewrite app_nil_r, rev_app_distr.
    f_equal. rewrite <-(app_nil_r (rev w ++ rev cur)), <-app_assoc.
    rewrite strip_app_ws; [done|by apply Forall_rev|done].
  - destruct s as [|x s].
    { simpl. rewrite rev_app_distr. f_equal.
      rewrite <-(app_nil_r (rev w ++ rev cur)), <-app_assoc.
      rewrite strip_app_ws; [done|by apply Forall_rev|done]. }
    rewrite split_fuel_step, match_PATH_SPLIT_RE.
    destruct (lstrip_split (x :: s)) as [w1 [Hw1 Hs]].
    destruct (PyStr.lstrip_chars (x :: s)) as [|c r] eqn:E.
    + (* only blanks are left *)
      assert (is_path_sep x = false) as Hx.
      { rewrite app_nil_r in Hs. subst w1. inversion Hw1; subst.
        by apply ws_not_sep. }
      simpl. rewrite Hx. apply (IH s (x :: cur) w); [simpl in Hn; lia|done].
    + destruct (is_path_sep c) eqn:Hc.
      * (* a separator after the blanks [w1] *)
        destruct (lstrip_split r) as [w2 [Hw2 Hr]].
        rewrite Hs, cut_at_app_ws by done. simpl. rewrite Hc.
        rewrite Hr at 2. rewrite cut_at_app_ws by done.
        simpl. f_equal.
        -- rewrite !rev_app_distr, rev_involutive, <-app_assoc.
           rewrite strip_app_ws; [done|by apply Forall_rev|done].
        -- rewrite app_nil_r.
           apply (IH (PyStr.lstrip_chars r) [] (rev w2)); [|by apply Forall_rev].
           pose proof (lstrip_length r) as Hl.
           assert (length (x :: s) = length (w1 ++ c :: r)) as Hlen by (by rewrite <-Hs).
           rewrite length_app in Hlen. simpl in Hlen, Hn. lia.
      * assert (is_path_sep x = false) as Hx.
        { destruct (Ascii.is_space x) eqn:Hws; [by apply ws_not_sep|].
          simpl in E. rewrite Hws in E. by injection E as -> _. }
        simpl. rewrite Hx. apply (IH s (x :: cur) w); [simpl in Hn; lia|done].
Qed.

End Trimming.

(** C7.  The [ansible_module_dir] setting is cut at every comma and colon
    and each piece is trimmed, in order; every resulting path is trimmed;
    ["a, b:c"] gives [["a"; "b"; "c"]]; an unset or empty setting gives the
    empty list. *)
Theorem parse_ansible_module_dir_spec :
  (∀ o : option string,
     parse_ansible_module_dir o =
     if PyStr.truthy_opt o then split_and_trim (default "" o) else [])
  ∧ (∀ o : option string,
       Forall (λ pth, PyStr.strip pth = pth) (parse_ansible_module_dir o))
  ∧ parse_ansible_module_dir (Some "a, b:c") = ["a"; "b"; "c"]
  ∧ parse_ansible_module_dir None = []
  ∧ parse_ansible_module_dir (Some "") = [].
Proof.
  split; [|split; [|by repeat split]].
  - intros o. unfold parse_ansible_module_dir, split_and_trim, Re.split.
    destruct (PyStr.truthy_opt o); [|done].
    rewrite map_map.
    rewrite (map_ext _ (λ l, PyStr.of_chars (PyStr.strip_chars l)))
      by (intros; apply strip_of_chars).
    rewrite (map_ext (λ pth, PyStr.strip (PyStr.of_chars pth))
                     (λ l, PyStr.of_chars (PyStr.strip_chars l)))
      by (intros; apply strip_of_chars).
    rewrite <-!(map_map PyStr.strip_chars PyStr.of_chars). f_equal.
    by rewrite (split_fuel_cut _ _ [] []).
  - intros o. unfold parse_ansible_module_dir.
    destruct (PyStr.truthy_opt o); [|done].
    apply List.Forall_forall. intros x [y [<- _]]%in_map_iff. apply strip_idemp.
Qed.

(** ** Strings and paths *)

Lemma append_cons (x : ascii) (a b : string) :
  String x a +:+ b = String x (a +:+ b).
Proof. done. Qed.

Lemma append_nil_r (s : string) : s +:+ "" = s.
Proof. induction s as [|x s IH]; [done|]. by rewrite append_cons, IH. Qed.

Lemma append_assoc (a b c : string) : (a +:+ b) +:+ c = a +:+ b +:+ c.
Proof. induction a as [|x a IH]; [done|]. by rewrite !append_cons, IH. Qed.

Lemma chars_app (a b : string) :
  PyStr.chars (a +:+ b) = PyStr.chars a ++ PyStr.chars b.
Proof.
  induction a as [|x a IH]; [done|]. rewrite append_cons.
  change (PyStr.chars (String x (a +:+ b))) with (x :: PyStr.chars (a +:+ b)).
  by rewrite IH.
Qed.

Lemma of_chars_chars (s : string) : PyStr.of_chars (PyStr.chars s) = s.
Proof. apply String.string_of_list_ascii_of_string. Qed.

Lemma truthy_app_r (a b : string) :
  PyStr.truthy b = true → PyStr.truthy (a +:+ b) = true.
Proof. by destruct a. Qed.

Lemma truthy_app_l (a b : string) :
  PyStr.truthy a = true → PyStr.truthy (a +:+ b) = true.
Proof. by destruct a. Qed.

Lemma startswith_app (c : ascii) (a b : string) :
  PyStr.truthy a = true →
  PyStr.startswith_char c (a +:+ b) = PyStr.startswith_char c a.
Proof. by destruct a. Qed.

Lemma endswith_chars (c : ascii) (s : string) :
  PyStr.endswith_char c s = true → ∃ l, PyStr.chars s = l ++ [c].
Proof.
  induction s as [|x s IH]; [done|].
  destruct s as [|y s].
  - cbn. intros ->%bool_decide_eq_true. by exists [].
  - intros H. destruct (IH H) as [l Hl]. exists (x :: l).
    change (PyStr.chars (String x (String y s)))
      with (x :: PyStr.chars (String y s)). by rewrite Hl.
Qed.

Lemma contains_char_chars (c : ascii) (s : string) :
  PyStr.contains_char c s = false →
  Forall (λ x, bool_decide (x = c) = false) (PyStr.chars s).
Proof.
  induction s as [|x s IH]; cbn; [by constructor|].
  intros [Hx Hs]%orb_false_iff. constructor; auto.
Qed.

Section Cutting.

Context (sep : ascii → bool).

Lemma cut_at_sep (a b cur : list ascii) (x : ascii) :
  sep x = true →
  PyStr.cut_at sep (a ++ x :: b) cur =
  PyStr.cut_at sep a cur ++ PyStr.cut_at sep b [].
Proof.
  intros Hx. revert cur.
  induction a as [|y a IH]; intros cur; simpl.
  - by rewrite Hx.
  - destruct (sep y); [by rewrite IH|apply IH].
Qed.

Lemma cut_at_none (b cur : list ascii) :
  Forall (λ x, sep x = false) b → PyStr.cut_at sep b cur = [rev cur ++ b].
Proof.
  intros Hb. revert cur.
  induction Hb as [|x b Hx _ IH]; intros cur; simpl.
  - by rewrite app_nil_r.
  - rewrite Hx, IH. simpl. by rewrite <-app_assoc.
Qed.

End Cutting.

Lemma components_slash (d n : string) :
  PyStr.contains_char "/" n = false →
  os_path.components (d +:+ "/" +:+ n) = os_path.components d ++ [n].
Proof.
  intros Hn. unfold os_path.components.
  rewrite chars_app. change (PyStr.chars ("/" +:+ n)) with ("/"%char :: PyStr.chars n).
  rewrite cut_at_sep by done.
  rewrite (cut_at_none _ (PyStr.chars n)) by (by apply contains_char_chars).
  rewrite map_app. simpl. by rewrite of_chars_chars.
Qed.

Lemma components_after_slash (d n : string) :
  PyStr.endswith_char "/" d = true →
  PyStr.contains_char "/" n = false →
  ∃ l, os_path.components d = l ++ [""] ∧
       os_path.components (d +:+ n) = l ++ [n].
Proof.
  intros [l Hl]%endswith_chars Hn. unfold os_path.components.
  rewrite chars_app, Hl, <-app_assoc. simpl.
  exists (map PyStr.of_chars (PyStr.cut_at (λ x, bool_decide (x = "/"%char)) l [])).
  rewrite !cut_at_sep by done.
  rewrite (cut_at_none _ (PyStr.chars n)) by (by apply contains_char_chars).
  rewrite !map_app. simpl. by rewrite of_chars_chars.
Qed.

Lemma walk_plain (at_ : list string) (n : string) :
  plain_name n → os_path.walk at_ n = at_ ++ [n].
Proof.
  intros (_ & H1 & H2 & H3). unfold os_path.walk.
  rewrite bool_decide_eq_false_2 by (by intros [?|?]).
  by rewrite bool_decide_eq_false_2.
Qed.

Lemma plain_name_not_abs (n : string) :
  plain_name n → PyStr.startswith_char "/" n = false.
Proof.
  intros (H & _). destruct n as [|x n]; [done|]. cbn in *.
  by apply orb_false_iff in H as [-> _].
Qed.

(** Joining a directory and a plain name names the entry of that name in
    the directory. *)
Lemma resolve_join (w : World) (d n : string) :
  PyStr.truthy d = true → plain_name n →
  os_path.resolve w (os_path.join d n) = os_path.resolve w d ++ [n].
Proof.
  intros Hd Hn. unfold os_path.join, os_path.resolve, os_path.isabs.
  rewrite (plain_name_not_abs n Hn), Hd. simpl.
  destruct (PyStr.endswith_char "/" d) eqn:He.
  - destruct (components_after_slash d n He (proj1 Hn)) as [l [H1 H2]].
    rewrite startswith_app, H1, H2, !foldl_app by done. simpl.
    by rewrite walk_plain.
  - rewrite startswith_app, components_slash, foldl_app by (done || apply Hn).
    simpl. by rewrite walk_plain.
Qed.

Lemma contains_char_app (c : ascii) (a b : string) :
  PyStr.contains_char c (a +:+ b) =
  PyStr.contains_char c a || PyStr.contains_char c b.
Proof.
  induction a as [|x a IH]; [done|]. rewrite append_cons. simpl.
  by rewrite IH, orb_assoc.
Qed.

Lemma inventory_fname_plain (cluster : Cluster.t) :
  PyStr.contains_char "/" (Cluster.name cluster) = false →
  plain_name (inventory_fname cluster).
Proof.
  intros H. unfold plain_name, inventory_fname, inventory_file_ending.
  split; [|repeat split; discriminate].
  by rewrite !contains_char_app, H.
Qed.

Lemma inventory_fname_truthy (cluster : Cluster.t) :
  PyStr.truthy (inventory_fname cluster) = true.
Proof. done. Qed.

Lemma inventory_fname_inj (a b : Cluster.t) :
  inventory_fname a = inventory_fname b → Cluster.name a = Cluster.name b.
Proof. unfold inventory_fname. by intros ?%(inj _)%(inj _). Qed.

Lemma join_truthy (a b : string) :
  PyStr.truthy b = true → PyStr.truthy (os_path.join a b) = true.
Proof.
  intros Hb. unfold os_path.join.
  destruct (PyStr.startswith_char "/" b); [done|].
  destruct (_ || _); [by apply truthy_app_r|].
  apply truthy_app_r. by apply truthy_app_r.
Qed.

(** ** The inventory document *)

Ltac os_unfold :=
  unfold mbind, OS_bind, bind, gets, ret, raise, try_except_OSError in *.

Lemma add_host_lookup node vars inventory group (g : string) :
  add_host node vars inventory group !! g =
  if bool_decide (g = group)
  then Some (default [] (inventory !! group)
             ++ [(Node.name node, Node.preferred_ip node, PyStr.join " " vars)])
  else inventory !! g.
Proof.
  unfold add_host. destruct (decide (g = group)) as [->|Hg].
  - rewrite (bool_decide_eq_true_2 (group = group)), lookup_insert_eq by done.
    case_bool_decide as Hd; [|done].
    rewrite lookup_insert_eq.
    destruct (inventory !! group) as [hs|] eqn:E; [|done].
    exfalso. apply Hd, elem_of_dom. by eexists.
  - rewrite (bool_decide_eq_false_2 (g = group)), lookup_insert_ne by done.
    case_bool_decide; [by rewrite lookup_insert_ne|done].
Qed.

Lemma add_host_nonempty node vars inventory group :
  add_host node vars inventory group ≠ ∅.
Proof.
  intros H. pose proof (add_host_lookup node vars inventory group group) as E.
  rewrite H, lookup_empty, bool_decide_eq_true_2 in E by done. done.
Qed.

Lemma foldl_add_host_nonempty node vars node_groups inventory :
  inventory ≠ ∅ ∨ node_groups ≠ [] →
  foldl (add_host node vars) inventory node_groups ≠ ∅.
Proof.
  revert inventory. induction node_groups as [|g gs IH]; intros inventory H.
  - by destruct H.
  - simpl. apply IH. left. apply add_host_nonempty.
Qed.

Lemma add_node_nonempty self inventory node :
  inventory ≠ ∅ → add_node self inventory node ≠ ∅.
Proof.
  intros H. unfold add_node. destruct (groups self !! Node.kind node); [|done].
  apply foldl_add_host_nonempty. by left.
Qed.

Lemma foldl_add_node_nonempty self nodes inventory :
  inventory ≠ ∅ → foldl (add_node self) inventory nodes ≠ ∅.
Proof.
  revert inventory. induction nodes as [|n ns IH]; intros inventory H; [done|].
  simpl. by apply IH, add_node_nonempty.
Qed.

(** The document is empty exactly when no node has a kind with at least
    one group. *)
Lemma build_document_empty self cluster :
  build_document self cluster = ∅ ↔
  ∀ node, node ∈ Cluster.get_all_nodes cluster →
          groups self !! Node.kind node = None ∨
          groups self !! Node.kind node = Some [].
Proof.
  unfold build_document. generalize (Cluster.get_all_nodes cluster) as nodes.
  induction nodes as [|n ns IH]; simpl.
  - split; [|done]. intros _ node H. by apply elem_of_nil in H.
  - split.
    + intros H node Hnode.
      assert (add_node self ∅ n = ∅) as Hn.
      { destruct (decide (add_node self ∅ n = ∅)) as [|Hne]; [done|].
        by apply (foldl_add_node_nonempty self ns) in Hne. }
      rewrite Hn in H. apply elem_of_cons in Hnode as [->|Hnode].
      * unfold add_node in Hn. destruct (groups self !! Node.kind n) as [gs|]; [|by left].
        right. f_equal. destruct gs as [|g gs]; [done|].
        exfalso. revert Hn. apply foldl_add_host_nonempty. by right.
      * by apply IH.
    + intros H.
      assert (add_node self ∅ n = ∅) as ->.
      { unfold add_node. destruct (H n) as [-> | ->]; [by left|done..]. }
      apply IH. intros node Hnode. apply H. by right.
Qed.

Lemma build_document_no_kind self cluster :
  (∀ node, node ∈ Cluster.get_all_nodes cluster →
           Node.kind node ∉ dom (groups self)) →
  build_document self cluster = ∅.
Proof.
  intros H. apply build_document_empty. intros node Hnode. left.
  by apply not_elem_of_dom, H.
Qed.

(** ** Setup *)

Lemma build_inventory_empty self cluster w :
  build_document self cluster = ∅ →
  _build_inventory self cluster w = (Return (self, None), w).
Proof. intros H. unfold _build_inventory. rewrite H. by rewrite bool_decide_eq_false_2 by auto. Qed.

Lemma setup_cluster_empty self cluster w :
  build_document self cluster = ∅ →
  setup_cluster self cluster w
  = (Return (self, true), with_ansible_env cluster w).
Proof.
  intros H. unfold setup_cluster. os_unfold.
  by rewrite build_inventory_empty.
Qed.

(** The same holds when every kind that is mapped is mapped to the empty
    list of groups: no inventory, and [True] without running the tool. *)
Lemma setup_cluster_empty_groups self cluster w :
  (∀ node, node ∈ Cluster.get_all_nodes cluster →
           groups self !! Node.kind node = None ∨
           groups self !! Node.kind node = Some []) →
  _build_inventory self cluster w = (Return (self, None), w)
  ∧ setup_cluster self cluster w
    = (Return (self, true), with_ansible_env cluster w).
Proof.
  intros H%build_document_empty.
  by rewrite build_inventory_empty, setup_cluster_empty.
Qed.

(** C1.  When no node of the cluster has a kind of the role-to-group
    mapping, [_build_inventory] returns [None] and leaves the world as it
    is, and [setup_cluster] returns [True].  By then lines 147-151 have
    set the five variables in the environment of the process; this is all
    that [setup_cluster] changes: no file is touched and no child process
    is launched. *)
Theorem no_matching_node_no_setup self cluster w :
  (∀ node, node ∈ Cluster.get_all_nodes cluster →
           Node.kind node ∉ dom (groups self)) →
  _build_inventory self cluster w = (Return (self, None), w)
  ∧ setup_cluster self cluster w
    = (Return (self, true), with_ansible_env cluster w)
  ∧ calls (setup_cluster self cluster w).2 = calls w
  ∧ fs (setup_cluster self cluster w).2 = fs w.
Proof.
  intros H%build_document_no_kind.
  rewrite build_inventory_empty, setup_cluster_empty by done. done.
Qed.

(** *** The world around a call *)

#[local] Arguments os_path.exists_ : simpl never.
#[local] Arguments os_path.isfile : simpl never.
#[local] Arguments os_path.stat : simpl never.
#[local] Arguments os_path.resolve : simpl never.
#[local] Arguments os_path.join : simpl never.
#[local] Arguments os_path.realpath : simpl never.
#[local] Arguments command_line : simpl never.
#[local] Arguments ansible_env : simpl never.
#[local] Arguments verbosity : simpl never.
#[local] Arguments inventory_text : simpl never.
#[local] Arguments build_document : simpl never.
#[local] Arguments inventory_fname : simpl never.
#[local] Arguments os.call : simpl never.
#[local] Arguments os.unlink : simpl never.
#[local] Arguments os.listdir : simpl never.
#[local] Arguments os.rmtree : simpl never.
#[local] Arguments os.write_file : simpl never.
#[local] Arguments os.mkdtemp : simpl never.
#[local] Arguments os.children : simpl never.

Lemma set_fs_calls f w : calls (set_fs f w) = calls w.
Proof. done. Qed.

Lemma resolve_set_fs f w p :
  os_path.resolve (set_fs f w) p = os_path.resolve w p.
Proof. done. Qed.

Lemma same_process_refl w : same_process w w.
Proof. exists id. by destruct w. Qed.

Lemma same_process_trans w1 w2 w3 :
  same_process w1 w2 → same_process w2 w3 → same_process w1 w3.
Proof. intros [f ->] [g ->]. by exists (g ∘ f). Qed.

Lemma same_process_calls w w' : same_process w w' → calls w' = calls w.
Proof. by intros [f ->]. Qed.

Lemma same_process_tool w w' :
  same_process w w' → ansible_playbook w' = ansible_playbook w.
Proof. by intros [f ->]. Qed.

Lemma same_process_environ w w' :
  same_process w w' → environ w' = environ w.
Proof. by intros [f ->]. Qed.

(** The assignments of lines 147-151 change the environment only, and
    the checks of the paths do not read it. *)
Lemma exists_set_environ env w p :
  os_path.exists_ (set_environ env w) p = os_path.exists_ w p.
Proof. done. Qed.

Lemma isfile_set_environ env w p :
  os_path.isfile (set_environ env w) p = os_path.isfile w p.
Proof. done. Qed.

(** Setting the five variables again changes nothing. *)
Lemma ansible_env_again w w' key :
  environ w' = ansible_env w key → ansible_env w' key = environ w'.
Proof.
  intros H. unfold ansible_env. rewrite H. unfold ansible_env.
  apply map_eq. intros var. rewrite !lookup_insert.
  by repeat case_decide.
Qed.

Lemma write_file_inv p content w w' :
  os.write_file p content w = (Return (), w') →
  PyStr.truthy p = true ∧ os_path.resolve w p ≠ [] ∧
  w' = set_fs (insert (os_path.resolve w p) (File content)) w.
Proof.
  unfold os.write_file. destruct (PyStr.truthy p); simpl; [|done].
  case_bool_decide as Hk; simpl; [done|].
  destruct (os_path.lookup_entry w _) as [[]|]; [done| |done].
  destruct (fs w !! _) as [[]|]; try done; case_bool_decide; try done;
    by intros [= <-].
Qed.

Lemma write_file_raises p content w e w' :
  os.write_file p content w = (Raise e, w') → w' = w ∧ ∃ msg, e = IOError msg.
Proof.
  unfold os.write_file. destruct (_ || _); [intros [= <- <-]; eauto|].
  destruct (os_path.lookup_entry w _) as [[]|]; [intros [= <- <-]; eauto| |intros [= <- <-]; eauto].
  destruct (fs w !! _) as [[]|]; try case_bool_decide; intros [= <- <-]; eauto.
Qed.

Lemma stat_written p content w :
  PyStr.truthy p = true → os_path.resolve w p ≠ [] →
  os_path.stat (set_fs (insert (os_path.resolve w p) (File content)) w) p
  = Some (File content).
Proof.
  intros Hp Hk. unfold os_path.stat. rewrite Hp, resolve_set_fs.
  unfold os_path.lookup_entry. destruct (os_path.resolve w p) eqn:E; [done|].
  simpl. by rewrite lookup_insert_eq.
Qed.

Lemma mkdtemp_inv w r w' :
  os.mkdtemp w = (r, w') →
  same_process w w' ∧
  ((∃ d, r = Return d ∧ PyStr.truthy d = true) ∨ ∃ msg, r = Raise (IOError msg)).
Proof.
  unfold os.mkdtemp.
  destruct (os_path.lookup_entry w ["tmp"]) as [[]|]; intros [= <- <-];
    try (split; [apply same_process_refl|right; eauto]).
  split; [by eexists|]. left. eauto.
Qed.

(** What [_build_inventory] can do: nothing when the document is empty;
    otherwise write the inventory file, or fail with [IOError]. *)
Lemma build_inventory_inv self cluster w r w' :
  _build_inventory self cluster w = (r, w') →
  same_process w w' ∧
  ( (r = Return (self, None) ∧ w' = w ∧ build_document self cluster = ∅)
  ∨ (∃ self' path,
       r = Return (self', Some path)
       ∧ build_document self cluster ≠ ∅
       ∧ path = os_path.join (_storage_path self') (inventory_fname cluster)
       ∧ (_storage_path self' = _storage_path self ∨
          _storage_path_tmp self = true ∧ _storage_path self = "")
       ∧ self' = set_storage_path (_storage_path self') self
       ∧ os_path.stat w' path
         = Some (File (inventory_text (build_document self cluster))))
  ∨ (∃ msg, r = Raise (IOError msg) ∧ build_document self cluster ≠ ∅)).
Proof.
  unfold _build_inventory. case_bool_decide as Hdoc.
  2:{ intros [= <- <-]. split; [apply same_process_refl|]. left.
      repeat split. by destruct (decide (build_document self cluster = ∅)). }
  os_unfold.
  set (prep := if _storage_path_tmp self then _ else _).
  destruct (prep w) as [[self1|e] w1] eqn:Hprep.
  2:{ intros [= <- <-]. subst prep.
      destruct (_storage_path_tmp self); [|done].
      destruct (PyStr.truthy (_storage_path self)); [done|]. simpl in Hprep.
      destruct (os.mkdtemp w) as [[d|e'] w2] eqn:Hmk; [done|].
      injection Hprep as -> ->.
      apply mkdtemp_inv in Hmk as [Hsp [(d & ? & _)|[msg [= ->]]]]; [done|].
      split; [done|]. right. right. eauto. }
  assert (same_process w w1 ∧ self1 = set_storage_path (_storage_path self1) self
          ∧ (_storage_path self1 = _storage_path self ∨
             _storage_path_tmp self = true ∧ _storage_path self = ""))
    as (Hsp & Hself & Hst).
  { subst prep. destruct (_storage_path_tmp self) eqn:Htmp.
    - destruct (PyStr.truthy (_storage_path self)) eqn:Ht; simpl in Hprep.
      + injection Hprep as <- <-. split; [apply same_process_refl|].
        split; [by destruct self|by left].
      + destruct (os.mkdtemp w) as [[d|e'] w2] eqn:Hmk; [|done].
        injection Hprep as <- <-. apply mkdtemp_inv in Hmk as [Hsp _].
        split; [done|]. split; [done|]. right. split; [done|].
        by destruct (_storage_path self).
    - injection Hprep as <- <-. split; [apply same_process_refl|].
      split; [by destruct self|by left]. }
  destruct (os.write_file _ _ w1) as [[[]|e] w2] eqn:Hw; intros [= <- <-].
  - apply write_file_inv in Hw as (Hp & Hk & ->).
    split; [eapply same_process_trans; [done|by eexists]|].
    right. left. exists self1, (os_path.join (_storage_path self1) (inventory_fname cluster)).
    repeat split; try done. by apply stat_written.
  - apply write_file_raises in Hw as [-> [msg ->]].
    split; [done|]. right. right. eauto.
Qed.

Lemma stat_exists w p e : os_path.stat w p = Some e → os_path.exists_ w p = true.
Proof. intros H. unfold os_path.exists_. rewrite H. by apply bool_decide_eq_true_2. Qed.

Lemma setup_with_inventory_none self cluster o w :
  PyStr.truthy_opt o = false →
  setup_with_inventory self cluster o w
  = (Return true, with_ansible_env cluster w).
Proof. intros H. unfold setup_with_inventory. os_unfold. by rewrite H. Qed.

Lemma setup_with_inventory_checked self cluster path w :
  PyStr.truthy path = true → paths_ok self path w = true →
  setup_with_inventory self cluster (Some path) w =
  match ansible_playbook w (length (calls w))
                         (launched self cluster path w).1
                         (launched self cluster path w).2 with
  | Some rc => (Return (bool_decide (rc = 0)),
                add_call (launched self cluster path w)
                         (with_ansible_env cluster w))
  | None => (Raise (OSError "call: cannot execute"),
             with_ansible_env cluster w)
  end.
Proof.
  intros Hp [[H1 H2]%andb_true_iff H3]%andb_true_iff.
  unfold setup_with_inventory, launched. os_unfold. simpl.
  rewrite Hp. simpl. rewrite exists_set_environ, H1. simpl.
  rewrite exists_set_environ, H2. simpl. rewrite isfile_set_environ, H3. simpl.
  unfold os.call, with_ansible_env. simpl.
  change (command_line self (set_environ _ w)) with (command_line self w).
  destruct (ansible_playbook w _ _ _) as [rc|]; [|done].
  by case_bool_decide.
Qed.

Lemma setup_with_inventory_unchecked self cluster path w :
  PyStr.truthy path = true → paths_ok self path w = false →
  ∃ msg, setup_with_inventory self cluster (Some path) w
         = (Raise (AnsibleError msg), with_ansible_env cluster w).
Proof.
  intros Hp H. unfold setup_with_inventory. os_unfold. simpl.
  rewrite Hp. simpl. unfold paths_ok in H. rewrite exists_set_environ.
  destruct (os_path.exists_ w path); simpl in *; [|eexists; reflexivity].
  rewrite exists_set_environ.
  destruct (os_path.exists_ w (_playbook_path self)); simpl in *;
    [|eexists; reflexivity].
  rewrite isfile_set_environ.
  destruct (os_path.isfile w (_playbook_path self)); simpl in *;
    [done|eexists; reflexivity].
Qed.

Lemma build_inventory_path self cluster w self1 path w1 :
  _build_inventory self cluster w = (Return (self1, Some path), w1) →
  PyStr.truthy path = true ∧ os_path.exists_ w1 path = true
  ∧ _playbook_path self1 = _playbook_path self
  ∧ calls w1 = calls w ∧ ansible_playbook w1 = ansible_playbook w.
Proof.
  intros H. apply build_inventory_inv in H as [Hsp H].
  destruct H as [(? & _)|[(s & p & [= <- <-] & _ & -> & _ & Hs & Hstat)|(? & ? & _)]];
    [done| |done].
  split; [apply join_truthy, inventory_fname_truthy|].
  split; [by eapply stat_exists|].
  split; [by rewrite Hs|].
  split; [by apply same_process_calls|by apply same_process_tool].
Qed.

Lemma setup_cluster_bind self cluster w :
  setup_cluster self cluster w =
  match _build_inventory self cluster w with
  | (Return (self1, inventory_path), w1) =>
      match setup_with_inventory self1 cluster inventory_path w1 with
      | (Return ok, w2) => (Return (self1, ok), w2)
      | (Raise e, w2) => (Raise e, w2)
      end
  | (Raise e, w1) => (Raise e, w1)
  end.
Proof.
  unfold setup_cluster. os_unfold.
  destruct (_build_inventory self cluster w) as [[[self1 o]|e] w1]; [|done].
  by destruct (setup_with_inventory self1 cluster o w1) as [[ok|e] w2].
Qed.

Lemma app_singleton_neq {A} (l : list A) (x : A) : l ≠ l ++ [x].
Proof.
  intros H. apply (f_equal length) in H. rewrite length_app in H. simpl in H. lia.
Qed.

(** [setup_cluster] launches the tool at most once; when it does, the
    result is the comparison of the exit code with 0. *)
Lemma setup_cluster_launch self cluster w :
  let r := setup_cluster self cluster w in
  calls r.2 = calls w ∨
  ∃ c rc self', calls r.2 = calls w ++ [c]
                ∧ ansible_playbook w (length (calls w)) c.1 c.2 = Some rc
                ∧ r.1 = Return (self', bool_decide (rc = 0))
                ∧ ∃ path w1, c = launched self' cluster path w1.
Proof.
  simpl. rewrite setup_cluster_bind.
  destruct (_build_inventory self cluster w) as [[[self1 o]|e] w1] eqn:Hb.
  2:{ left. simpl. apply build_inventory_inv in Hb as [Hsp _].
      by apply same_process_calls. }
  destruct o as [path|].
  2:{ left. rewrite setup_with_inventory_none by done. simpl.
      apply build_inventory_inv in Hb as [Hsp _]. by apply same_process_calls. }
  apply build_inventory_path in Hb as (Hp & _ & _ & Hc & Ht).
  destruct (paths_ok self1 path w1) eqn:Hok.
  - rewrite setup_with_inventory_checked by done.
    destruct (ansible_playbook w1 _ _ _) as [rc|] eqn:Hrc; simpl; [|by left].
    right. exists (launched self1 cluster path w1), rc, self1.
    rewrite Hc. rewrite Ht, Hc in Hrc. eauto 10.
  - destruct (setup_with_inventory_unchecked self1 cluster path w1 Hp Hok)
      as [msg ->]. by left.
Qed.

(** C2.  For a cluster with a node of a mapped kind: whenever the tool is
    run, [setup_cluster] returns [True] for exit code 0 and [False] for any
    other, and does not raise; the tool is run at most once, and it is run
    as soon as the inventory was written and the playbook is a file.  The
    world after such a run is the one [_build_inventory] left, with the
    five variables set in the environment of the process and the child
    process added. *)
Theorem exit_code_decides self cluster w :
  (∃ node, node ∈ Cluster.get_all_nodes cluster
           ∧ Node.kind node ∈ dom (groups self)) →
  (calls (setup_cluster self cluster w).2 = calls w
   ∨ ∃ c, calls (setup_cluster self cluster w).2 = calls w ++ [c])
  ∧ (∀ c, calls (setup_cluster self cluster w).2 = calls w ++ [c] →
       ∃ rc self',
         ansible_playbook w (length (calls w)) c.1 c.2 = Some rc
         ∧ (setup_cluster self cluster w).1
           = Return (self', bool_decide (rc = 0))
         ∧ ((setup_cluster self cluster w).1 = Return (self', true) ↔ rc = 0)
         ∧ ((setup_cluster self cluster w).1 = Return (self', false) ↔ rc ≠ 0))
  ∧ (∀ self1 path w1 rc,
       _build_inventory self cluster w = (Return (self1, Some path), w1) →
       os_path.exists_ w1 (_playbook_path self) = true →
       os_path.isfile w1 (_playbook_path self) = true →
       ansible_playbook w (length (calls w))
                        (launched self1 cluster path w1).1
                        (launched self1 cluster path w1).2 = Some rc →
       setup_cluster self cluster w
       = (Return (self1, bool_decide (rc = 0)),
          add_call (launched self1 cluster path w1)
                   (with_ansible_env cluster w1))).
Proof.
  intros _. pose proof (setup_cluster_launch self cluster w) as H. simpl in H.
  split; [|split].
  - destruct H as [H|(c & rc & self' & H & _)]; [by left|right; eauto].
  - intros c Hc. destruct H as [H|(c' & rc & self' & H & Hrc & Hr & _)].
    { rewrite H in Hc. by apply app_singleton_neq in Hc. }
    rewrite H in Hc. apply (inj _) in Hc as [= <-].
    exists rc, self'. split; [done|]. split; [done|]. rewrite Hr.
    split; (split; [intros [= Hb]|intros Hb; do 2 f_equal]).
    + by apply bool_decide_eq_true in Hb.
    + by apply bool_decide_eq_true_2.
    + by apply bool_decide_eq_false in Hb.
    + by apply bool_decide_eq_false_2.
  - intros self1 path w1 rc Hb H1 H2 Hrc.
    rewrite setup_cluster_bind, Hb.
    apply build_inventory_path in Hb as (Hp & He & Hpb & Hc & Ht).
    rewrite setup_with_inventory_checked; [|done|].
    + by rewrite Ht, Hc, Hrc.
    + unfold paths_ok. by rewrite He, Hpb, H1, H2.
Qed.


(** *** The command line and the environment *)

(** C9.  The verbosity is computed from the log level, is at most 3, and
    is positive exactly for levels up to 20; the flag [-v], [-vv] or [-vvv]
    is appended to the command line exactly when the verbosity is positive,
    so never at or above the level [WARNING]; the rest of the command line
    holds no such flag. *)
Theorem verbosity_flag self w path :
  verbosity w = Z.min 3 ((logging_WARNING - log_level w) / 10)
  ∧ verbosity w ≤ 3
  ∧ (0 < verbosity w ↔ log_level w ≤ 20)
  ∧ command_line self w path =
    command_without_verbosity self w path
    ++ (if bool_decide (0 < verbosity w)
        then ["-" +:+ PyStr.repeat_char "v" (Z.to_nat (verbosity w))]
        else [])
  ∧ (0 < verbosity w →
     "-" +:+ PyStr.repeat_char "v" (Z.to_nat (verbosity w))
     ∈ ["-v"; "-vv"; "-vvv"])
  ∧ (logging_WARNING ≤ log_level w →
     command_line self w path = command_without_verbosity self w path)
  ∧ Forall (λ arg, ∀ n, arg ≠ "-" +:+ PyStr.repeat_char "v" (S n))
           (command_without_verbosity self w path).
Proof.
  assert (verbosity w ≤ 3) as Hle by (unfold verbosity; lia).
  assert (0 < verbosity w ↔ log_level w ≤ 20) as Hpos.
  { unfold verbosity, logging_WARNING.
    pose proof (Z.div_mod (30 - log_level w) 10 ltac:(lia)).
    pose proof (Z.mod_pos_bound (30 - log_level w) 10 ltac:(lia)). lia. }
  assert (command_line self w path =
          command_without_verbosity self w path
          ++ (if bool_decide (0 < verbosity w)
              then ["-" +:+ PyStr.repeat_char "v" (Z.to_nat (verbosity w))]
              else [])) as Hcmd.
  { unfold command_line, command_without_verbosity.
    rewrite (bool_decide_ext (verbosity w > 0) (0 < verbosity w)) by lia.
    destruct (_sudo self), (bool_decide (0 < verbosity w)); simpl;
      by rewrite ?app_nil_r. }
  split; [done|]. split; [done|]. split; [done|]. split; [done|].
  split; [|split].
  - intros Hv.
    assert (verbosity w = 1 ∨ verbosity w = 2 ∨ verbosity w = 3)
      as [->|[->| ->]] by lia;
      apply list_elem_of_In; vm_compute; tauto.
  - intros Hl. rewrite Hcmd, bool_decide_eq_false_2, app_nil_r; [done|].
    unfold logging_WARNING in Hl. lia.
  - unfold command_without_verbosity, os_path.realpath.
    destruct (_sudo self); repeat constructor; intros n; discriminate.
Qed.

Lemma build_inventory_pipelining flag self cluster w :
  _build_inventory (set_ssh_pipelining flag self) cluster w =
  match _build_inventory self cluster w with
  | (Return (self1, o), w1) => (Return (set_ssh_pipelining flag self1, o), w1)
  | (Raise e, w1) => (Raise e, w1)
  end.
Proof.
  unfold _build_inventory.
  change (build_document (set_ssh_pipelining flag self) cluster)
    with (build_document self cluster).
  case_bool_decide; [|done]. os_unfold. simpl.
  destruct (_storage_path_tmp self); simpl.
  - destruct (PyStr.truthy (_storage_path self)); simpl.
    + by destruct (os.write_file _ _ w) as [[[]|e] w2].
    + destruct (os.mkdtemp w) as [[d|e] w1]; [|done]. simpl.
      by destruct (os.write_file _ _ w1) as [[[]|e] w2].
  - by destruct (os.write_file _ _ w) as [[[]|e] w2].
Qed.

(** C10.  Whenever the inventory was written, the playbook is a file and
    the tool can be executed, [setup_cluster] launches one child process,
    and its environment has [ANSIBLE_SSH_PIPELINING] set to [yes], whatever
    the [ssh_pipelining] attribute of the provider is; so has the
    environment of every child process of any call.  The attribute changes
    neither the world [setup_cluster] leaves (its child processes and
    their environments included) nor the value it returns. *)
Theorem pipelining_always_on self cluster w flag :
  (∀ self1 path w1 rc,
     _build_inventory self cluster w = (Return (self1, Some path), w1) →
     os_path.exists_ w1 (_playbook_path self) = true →
     os_path.isfile w1 (_playbook_path self) = true →
     ansible_playbook w (length (calls w))
                      (launched self1 cluster path w1).1
                      (launched self1 cluster path w1).2 = Some rc →
     ∃ cmd env,
       calls (setup_cluster (set_ssh_pipelining flag self) cluster w).2
       = calls w ++ [(cmd, env)]
       ∧ env !! "ANSIBLE_SSH_PIPELINING" = Some "yes")
  ∧ Forall (λ c : list string * gmap string string,
              c.2 !! "ANSIBLE_SSH_PIPELINING" = Some "yes")
           (drop (length (calls w))
                 (calls (setup_cluster (set_ssh_pipelining flag self)
                                       cluster w).2))
  ∧ (setup_cluster (set_ssh_pipelining flag self) cluster w).2
    = (setup_cluster self cluster w).2
  ∧ outcome_map snd (setup_cluster (set_ssh_pipelining flag self) cluster w).1
    = outcome_map snd (setup_cluster self cluster w).1.
Proof.
  assert (∀ w' key, ansible_env w' key !! "ANSIBLE_SSH_PIPELINING" = Some "yes")
    as Henv.
  { intros w' key. unfold ansible_env.
    rewrite lookup_insert_ne by done. apply lookup_insert_eq. }
  assert ((setup_cluster (set_ssh_pipelining flag self) cluster w).2
          = (setup_cluster self cluster w).2
          ∧ outcome_map snd
              (setup_cluster (set_ssh_pipelining flag self) cluster w).1
            = outcome_map snd (setup_cluster self cluster w).1) as [Hw Hr].
  { rewrite !setup_cluster_bind, build_inventory_pipelining.
    destruct (_build_inventory self cluster w) as [[[self1 o]|e] w1]; [|done].
    change (setup_with_inventory (set_ssh_pipelining flag self1))
      with (setup_with_inventory self1).
    by destruct (setup_with_inventory self1 cluster o w1) as [[ok|e] w2]. }
  rewrite Hw. split; [|split; [|done]].
  - intros self1 path w1 rc Hb H1 H2 Hrc.
    exists (launched self1 cluster path w1).1, (launched self1 cluster path w1).2.
    split; [|apply Henv].
    rewrite setup_cluster_bind, Hb.
    apply build_inventory_path in Hb as (Hp & He & Hpb & Hc & Ht).
    rewrite setup_with_inventory_checked; [|done|].
    + rewrite Ht, Hc, Hrc. simpl. by rewrite Hc.
    + unfold paths_ok. by rewrite He, Hpb, H1, H2.
  - destruct (setup_cluster_launch self cluster w)
      as [->|(c & rc & self' & -> & _ & _ & path & w1 & ->)].
    + by rewrite drop_all.
    + rewrite drop_app_length. repeat constructor. apply Henv.
Qed.

(** ** The inventory file *)

Lemma foldl_add_host_lookup node vars node_groups :
  ∀ (inventory : gmap string (list host)) (g : string),
  (∀ k, inventory !! k ≠ Some []) →
  default [] (foldl (add_host node vars) inventory node_groups !! g) =
  default [] (inventory !! g)
  ++ flat_map (λ g', if bool_decide (g = g')
                     then [(Node.name node, Node.preferred_ip node,
                            PyStr.join " " vars)] else []) node_groups
  ∧ (∀ k, foldl (add_host node vars) inventory node_groups !! k ≠ Some []).
Proof.
  induction node_groups as [|g' gs IH]; intros inventory g Hne; simpl.
  - by rewrite app_nil_r.
  - assert (∀ k, add_host node vars inventory g' !! k ≠ Some []) as Hne'.
    { intros k. rewrite add_host_lookup. case_bool_decide; [|done].
      intros [= Hnil]. by apply app_eq_nil in Hnil as [_ ?]. }
    destruct (IH _ g Hne') as [-> H2]. split; [|done].
    rewrite add_host_lookup.
    case_bool_decide as Hg; simpl; [subst; by rewrite <-app_assoc|done].
Qed.

Lemma foldl_add_node_lookup self nodes :
  ∀ (inventory : gmap string (list host)) (g : string),
  (∀ k, inventory !! k ≠ Some []) →
  default [] (foldl (add_node self) inventory nodes !! g) =
  default [] (inventory !! g) ++ hosts_of_group self nodes g
  ∧ (∀ k, foldl (add_node self) inventory nodes !! k ≠ Some []).
Proof.
  induction nodes as [|n ns IH]; intros inventory g Hne; simpl.
  - by rewrite app_nil_r.
  - assert (default [] (add_node self inventory n !! g) =
            default [] (inventory !! g)
            ++ flat_map (λ g', if bool_decide (g = g')
                               then [host_of self n] else [])
                 (default [] (groups self !! Node.kind n))
            ∧ ∀ k, add_node self inventory n !! k ≠ Some []) as [H1 H2].
    { unfold add_node. destruct (groups self !! Node.kind n) as [gs|]; simpl.
      - by apply foldl_add_host_lookup.
      - by rewrite app_nil_r. }
    destruct (IH _ g H2) as [-> H3]. split; [|done].
    by rewrite H1, <-app_assoc.
Qed.

(** The document holds, for every group, exactly the host entries of the
    nodes mapped to it; a group without hosts is not in the document. *)
Lemma build_document_lookup self cluster (g : string) :
  build_document self cluster !! g =
  match hosts_of_group self (Cluster.get_all_nodes cluster) g with
  | [] => None
  | hosts => Some hosts
  end.
Proof.
  unfold build_document.
  destruct (foldl_add_node_lookup self (Cluster.get_all_nodes cluster) ∅ g)
    as [H1 H2]; [by intros k; rewrite lookup_empty|].
  rewrite lookup_empty in H1. simpl in H1. specialize (H2 g).
  destruct (foldl _ _ _ !! g) as [hs|]; simpl in H1; subst.
  - by destruct (hosts_of_group _ _ _).
  - by rewrite <-H1.
Qed.

Lemma section_text_eq (group : string) (hosts : list host) :
  section_text (group, hosts) =
  PyStr.nl +:+ "[" +:+ group +:+ "]" +:+ PyStr.nl
  +:+ PyStr.concat (map hostline hosts).
Proof.
  unfold section_text. simpl. rewrite !append_assoc.
  destruct hosts as [|h hosts].
  - by rewrite bool_decide_eq_false_2 by auto.
  - by rewrite bool_decide_eq_true_2.
Qed.

Lemma join_cons_prefix (sep x : string) (l : list string) :
  ∃ more, PyStr.join sep (x :: l) = x +:+ more.
Proof.
  destruct l as [|y l]; [exists ""; simpl; by rewrite append_nil_r|].
  by eexists.
Qed.

Lemma write_file_ok p content w :
  PyStr.truthy p = true → os_path.resolve w p ≠ [] →
  os_path.lookup_entry w (removelast (os_path.resolve w p)) = Some Dir →
  fs w !! os_path.resolve w p ≠ Some Dir →
  os_path.resolve w p ∉ locked w →
  os.write_file p content w
  = (Return (), set_fs (insert (os_path.resolve w p) (File content)) w).
Proof.
  intros Hp Hk Hd Hf Hl. unfold os.write_file. rewrite Hp. simpl.
  rewrite bool_decide_eq_false_2 by done. simpl. rewrite Hd.
  rewrite (bool_decide_eq_false_2 _ Hl).
  by destruct (fs w !! _) as [[]|].
Qed.

(** C4.  The inventory file that [_build_inventory] writes is
    [<storage>/ansible-inventory.<cluster name>]; its text is, for each
    group of the document (each once), an empty line, the line [[group]]
    and one line [<name> ansible_ssh_host=<address> <variables>] per host
    of the group, where the variables start with
    [ansible_ssh_user=<login user>].  The file is written whenever some
    node is mapped to a group and the storage directory can take it. *)
Theorem inventory_file_format self cluster w :
  (∃ node, node ∈ Cluster.get_all_nodes cluster
           ∧ Node.kind node ∈ dom (groups self)) →
  (∀ self1 path w1,
     _build_inventory self cluster w = (Return (self1, Some path), w1) →
     path = os_path.join (_storage_path self1)
              ("ansible-inventory" +:+ "." +:+ Cluster.name cluster)
     ∧ os_path.stat w1 path
       = Some (File (PyStr.concat
                       (map section_text
                            (map_to_list (build_document self cluster))))))
  ∧ NoDup (map fst (map_to_list (build_document self cluster)))
  ∧ (∀ group hosts,
       (group, hosts) ∈ map_to_list (build_document self cluster) ↔
       hosts = hosts_of_group self (Cluster.get_all_nodes cluster) group
       ∧ hosts ≠ [])
  ∧ (∀ group hosts,
       section_text (group, hosts) =
       PyStr.nl +:+ "[" +:+ group +:+ "]" +:+ PyStr.nl
       +:+ PyStr.concat (map hostline hosts))
  ∧ (∀ node,
       hostline (host_of self node) =
       Node.name node +:+ " ansible_ssh_host="
       +:+ PyStr.str_opt (Node.preferred_ip node) +:+ " "
       +:+ PyStr.join " " (extra_vars self node) +:+ PyStr.nl
       ∧ ∃ more, PyStr.join " " (extra_vars self node) =
                 ("ansible_ssh_user=" +:+ Node.image_user node) +:+ more)
  ∧ (build_document self cluster ≠ ∅ →
     PyStr.truthy (_storage_path self) = true →
     os_path.stat w (_storage_path self) = Some Dir →
     PyStr.contains_char "/" (Cluster.name cluster) = false →
     let k := os_path.resolve w (_storage_path self)
              ++ [inventory_fname cluster] in
     fs w !! k ≠ Some Dir → k ∉ locked w →
     _build_inventory self cluster w =
     (Return (self, Some (os_path.join (_storage_path self)
                                       (inventory_fname cluster))),
      set_fs (insert k (File (inventory_text (build_document self cluster))))
             w)).
Proof.
  intros _. split; [|split; [|split; [|split; [|split]]]].
  - intros self1 path w1 H. apply build_inventory_inv in H as [_ H].
    destruct H as [(? & _)|[(s & p & [= <- <-] & _ & -> & _ & _ & Hstat)|(? & ? & _)]];
      done.
  - apply NoDup_fst_map_to_list.
  - intros group hosts. rewrite elem_of_map_to_list, build_document_lookup.
    destruct (hosts_of_group _ _ _) as [|h hs]; [|split].
    + split; [done|]. by intros [-> ?].
    + by intros [= <-].
    + by intros [-> _].
  - apply section_text_eq.
  - intros node. split; [done|]. apply join_cons_prefix.
  - intros Hdoc Hst Hdir Hname k Hk Hl.
    pose proof (resolve_join w (_storage_path self) (inventory_fname cluster)
                  Hst (inventory_fname_plain _ Hname)) as Hres.
    assert (os.write_file
              (os_path.join (_storage_path self) (inventory_fname cluster))
              (inventory_text (build_document self cluster)) w
            = (Return (),
               set_fs (insert k (File (inventory_text
                                         (build_document self cluster)))) w))
      as Hw.
    { rewrite write_file_ok; rewrite ?Hres; try done.
      - apply join_truthy, inventory_fname_truthy.
      - by destruct (os_path.resolve w (_storage_path self)).
      - rewrite removelast_last. unfold os_path.stat in Hdir.
        by rewrite Hst in Hdir. }
    unfold _build_inventory. rewrite bool_decide_eq_true_2 by done.
    os_unfold. rewrite Hst. simpl.
    destruct (_storage_path_tmp self); by rewrite Hw.
Qed.

(** ** Clean-up *)

Lemma unlink_inv p w r w' :
  os.unlink p w = (r, w') →
  (r = Return () ∧ (∃ c, os_path.stat w p = Some (File c))
   ∧ (os_path.resolve w p ∉ locked w)
   ∧ w' = set_fs (delete (os_path.resolve w p)) w)
  ∨ ((∃ msg, r = Raise (OSError msg)) ∧ w' = w
     ∧ (os_path.stat w p = None ∨ os_path.stat w p = Some Dir
        ∨ os_path.resolve w p ∈ locked w)).
Proof.
  unfold os.unlink. destruct (os_path.stat w p) as [[c|]|] eqn:E.
  - case_bool_decide; intros [= <- <-]; [right|left]; eauto 10.
  - intros [= <- <-]. right; eauto 10.
  - intros [= <- <-]. right; eauto 10.
Qed.

Lemma listdir_inv p w r w' :
  os.listdir p w = (r, w') →
  w' = w ∧ ((r = Return (os.children w (os_path.resolve w p))
             ∧ os_path.stat w p = Some Dir)
            ∨ ∃ msg, r = Raise (OSError msg)).
Proof.
  unfold os.listdir. destruct (os_path.stat w p) as [[c|]|] eqn:E;
    intros [= <- <-]; eauto.
Qed.

Lemma rmtree_inv p w r w' :
  os.rmtree p w = (r, w') →
  (r = Return () ∧ os_path.stat w p = Some Dir ∧ os_path.resolve w p ≠ []
   ∧ w' = set_fs (filter (λ kv, os.below (os_path.resolve w p) kv.1 = false)) w)
  ∨ ((∃ msg, r = Raise (OSError msg)) ∧ w' = w).
Proof.
  unfold os.rmtree. destruct (os_path.stat w p) as [[c|]|] eqn:E;
    try (intros [= <- <-]; right; eauto).
  case_bool_decide as Hk; simpl; [intros [= <- <-]; right; eauto|].
  destruct (existsb _ _); intros [= <- <-]; [right; eauto|left; eauto].
Qed.

Lemma exists_false_stat w p : os_path.exists_ w p = false → os_path.stat w p = None.
Proof.
  unfold os_path.exists_. intros H%bool_decide_eq_false.
  destruct (os_path.stat w p); [|done]. exfalso. by apply H.
Qed.

Lemma cleanup_inv self cluster w :
  ∃ w', cleanup self cluster w = (Return (), w')
        ∧ cleanup_effect self cluster w w'.
Proof.
  unfold cleanup. os_unfold.
  fold (inventory_path_of self cluster).
  destruct (PyStr.truthy (_storage_path self)) eqn:Ht; simpl.
  2:{ eexists. split; [done|]. constructor. by left. }
  destruct (os_path.exists_ w (_storage_path self)) eqn:Hd; simpl.
  2:{ eexists. split; [done|]. constructor. by right; left. }
  destruct (os_path.exists_ w (inventory_path_of self cluster)) eqn:Hp; simpl.
  2:{ eexists. split; [done|]. constructor. right; right; left.
      by apply exists_false_stat. }
  destruct (os.unlink _ w) as [r1 w1] eqn:Hu.
  apply unlink_inv in Hu as [(-> & [c Hc] & Hl & ->)|([msg ->] & -> & Hwhy)].
  2:{ eexists. split; [done|]. constructor. tauto. }
  destruct (_storage_path_tmp self) eqn:Htmp.
  2:{ eexists. split; [done|]. by eapply cleanup_file. }
  destruct (os.listdir _ _) as [r2 w2] eqn:Hls.
  apply listdir_inv in Hls as [-> [[-> Hdir]|[msg ->]]].
  2:{ eexists. split; [done|]. by eapply cleanup_file. }
  case_bool_decide as Hn.
  2:{ eexists. split; [done|]. by eapply cleanup_file. }
  destruct (os.rmtree _ _) as [r3 w3] eqn:Hrm.
  apply rmtree_inv in Hrm as [(-> & _ & Hk & ->)|([msg ->] & ->)].
  2:{ eexists. split; [done|]. by eapply cleanup_file. }
  eexists. split; [done|].
  rewrite resolve_set_fs in *.
  eapply cleanup_directory; try done. by apply nil_length_inv.
Qed.

Lemma strip_prefix_app (d r : list string) : os.strip_prefix d (d ++ r) = Some r.
Proof.
  induction d as [|x d IH]; [done|]. simpl.
  by rewrite bool_decide_eq_true_2.
Qed.

Lemma below_self (k : list string) : os.below k k = true.
Proof.
  unfold os.below. rewrite <-(app_nil_r k) at 2. by rewrite strip_prefix_app.
Qed.

Lemma children_elem w (d : list string) (n : string) e :
  fs w !! (d ++ [n]) = Some e → n ∈ os.children w d.
Proof.
  intros H. unfold os.children. apply list_elem_of_omap.
  exists (d ++ [n]). split.
  - apply list_elem_of_In, in_map_iff. exists (d ++ [n], e).
    split; [done|]. by apply list_elem_of_In, elem_of_map_to_list.
  - unfold os.child_name. by rewrite strip_prefix_app.
Qed.

Lemma stat_truthy w p :
  PyStr.truthy p = true →
  os_path.stat w p = os_path.lookup_entry w (os_path.resolve w p).
Proof. intros H. unfold os_path.stat. by rewrite H. Qed.

Lemma lookup_entry_file w k c :
  os_path.lookup_entry w k = Some (File c) → k ≠ [] ∧ fs w !! k = Some (File c).
Proof. by destruct k. Qed.

Lemma lookup_entry_delete w (k q : list string) :
  q ≠ k →
  os_path.lookup_entry (set_fs (delete k) w) q = os_path.lookup_entry w q.
Proof.
  intros H. destruct q; [done|]. simpl. by rewrite lookup_delete_ne.
Qed.

Lemma inventory_path_truthy self cluster :
  PyStr.truthy (inventory_path_of self cluster) = true.
Proof. apply join_truthy, inventory_fname_truthy. Qed.

Lemma gone_after_unlink w p c :
  PyStr.truthy p = true → os_path.stat w p = Some (File c) →
  os_path.exists_ (set_fs (delete (os_path.resolve w p)) w) p = false.
Proof.
  intros Ht Hc. unfold os_path.exists_. apply bool_decide_eq_false_2.
  rewrite stat_truthy in * by done. intros [e He].
  apply lookup_entry_file in Hc as [Hk _].
  unfold os_path.lookup_entry in He. rewrite resolve_set_fs in He.
  destruct (os_path.resolve w p) as [|x k]; [done|]. simpl in He.
  by rewrite lookup_delete_eq in He.
Qed.

Lemma gone_after_rmtree w p c P `{!∀ kv, Decision (P kv)} :
  PyStr.truthy p = true → os_path.stat w p = Some (File c) →
  os_path.exists_
    (set_fs (filter P) (set_fs (delete (os_path.resolve w p)) w)) p = false.
Proof.
  intros Ht Hc. unfold os_path.exists_. apply bool_decide_eq_false_2.
  rewrite stat_truthy in * by done. intros [e He].
  apply lookup_entry_file in Hc as [Hk _].
  unfold os_path.lookup_entry in He. rewrite !resolve_set_fs in He.
  destruct (os_path.resolve w p) as [|x k]; [done|]. simpl in He.
  apply map_lookup_filter_Some in He as [He _].
  by rewrite lookup_delete_eq in He.
Qed.

(** When the inventory path still names something after a [cleanup],
    nothing was removed: the storage is not tracked or is gone, or the
    entry is a directory, or the process may not remove it. *)
Lemma cleanup_effect_residue self cluster w w' :
  cleanup_effect self cluster w w' →
  os_path.exists_ w' (inventory_path_of self cluster) = true →
  w' = w
  ∧ (PyStr.truthy (_storage_path self) = false
     ∨ os_path.exists_ w (_storage_path self) = false
     ∨ os_path.stat w (inventory_path_of self cluster) = Some Dir
     ∨ os_path.resolve w (inventory_path_of self cluster) ∈ locked w).
Proof.
  pose proof (inventory_path_truthy self cluster) as Ht.
  intros H He. destruct H as [H|c _ _ Hc _|c _ _ Hc _ _ w1 _ _ _].
  - split; [done|]. destruct H as [?|[?|[H|[?|?]]]]; try tauto.
    unfold os_path.exists_ in He. rewrite H in He.
    apply bool_decide_eq_true in He. by destruct He.
  - by rewrite (gone_after_unlink w _ c) in He.
  - subst w1. by rewrite (gone_after_rmtree w _ c) in He.
Qed.

(** A second [cleanup] finds nothing to do. *)
Lemma cleanup_twice self cluster w w' :
  cleanup_effect self cluster w w' →
  cleanup self cluster w = (Return (), w') →
  cleanup self cluster w' = (Return (), w').
Proof.
  intros H Hc. destruct (cleanup_inv self cluster w') as (w'' & Hc' & H').
  destruct H as [|c Ht Hd Hp Hl|c Ht Hd Hp Hl Htmp w1 Hdir Hk Hch]; [done|..].
  - unfold cleanup. os_unfold. fold (inventory_path_of self cluster). simpl.
    destruct (_ && _); simpl; [|done].
    by rewrite (gone_after_unlink w _ c)
      by (done || apply inventory_path_truthy).
  - unfold cleanup. os_unfold. simpl.
    assert (os_path.exists_
              (set_fs (filter (λ kv, os.below (os_path.resolve w (_storage_path self))
                                              kv.1 = false)) w1)
              (_storage_path self) = false) as ->.
    { unfold os_path.exists_. apply bool_decide_eq_false_2.
      rewrite stat_truthy by done. intros [e He]. subst w1.
      unfold os_path.lookup_entry in He. rewrite !resolve_set_fs in He.
      destruct (os_path.resolve w (_storage_path self)) as [|x k] eqn:E; [done|].
      simpl in He. apply map_lookup_filter_Some in He as [_ He]. simpl in He.
      by rewrite below_self in He. }
    by rewrite andb_false_r.
Qed.

Lemma app_singleton_ne_self {A} (l : list A) (x : A) : l ≠ l ++ [x].
Proof. apply app_singleton_neq. Qed.

Lemma stat_delete_other w (k : list string) p :
  os_path.resolve w p ≠ k →
  os_path.stat (set_fs (delete k) w) p = os_path.stat w p.
Proof.
  intros H. unfold os_path.stat. destruct (PyStr.truthy p); [|done].
  rewrite resolve_set_fs. by apply lookup_entry_delete.
Qed.

(** C6.  [cleanup] never raises, also when the removal fails (an [OSError]
    of [os.unlink] is swallowed); a second [cleanup] in a row does not
    raise and changes nothing; when the inventory file or the storage
    directory is absent nothing happens; an inventory file that can be
    removed is gone afterwards, and one that is still there is one that
    could not be removed. *)
Theorem cleanup_idempotent_total self cluster w :
  (cleanup self cluster w).1 = Return ()
  ∧ cleanup self cluster (cleanup self cluster w).2
    = (Return (), (cleanup self cluster w).2)
  ∧ (os_path.exists_ w (inventory_path_of self cluster) = false
     ∨ os_path.exists_ w (_storage_path self) = false →
     cleanup self cluster w = (Return (), w))
  ∧ (∀ msg, os.unlink (inventory_path_of self cluster) w
            = (Raise (OSError msg), w) →
     cleanup self cluster w = (Return (), w))
  ∧ (∀ c, PyStr.truthy (_storage_path self) = true →
          os_path.exists_ w (_storage_path self) = true →
          os_path.stat w (inventory_path_of self cluster) = Some (File c) →
          os_path.resolve w (inventory_path_of self cluster) ∉ locked w →
          os_path.exists_ (cleanup self cluster w).2
                          (inventory_path_of self cluster) = false)
  ∧ (os_path.exists_ (cleanup self cluster w).2
                     (inventory_path_of self cluster) = true →
     (cleanup self cluster w).2 = w
     ∧ (PyStr.truthy (_storage_path self) = false
        ∨ os_path.exists_ w (_storage_path self) = false
        ∨ os_path.stat w (inventory_path_of self cluster) = Some Dir
        ∨ os_path.resolve w (inventory_path_of self cluster) ∈ locked w)).
Proof.
  destruct (cleanup_inv self cluster w) as (w' & Hc & He). rewrite Hc. simpl.
  split; [done|]. split; [by apply (cleanup_twice self cluster w)|].
  split; [|split; [|split]].
  - intros H.
    destruct He as [_|c _ Hd Hp _|c _ Hd Hp _ _ w1 _ _ _]; [done|..];
      apply stat_exists in Hp; destruct H; congruence.
  - intros msg Hu. apply unlink_inv in Hu as [(? & _)|(_ & _ & Hwhy)]; [done|].
    destruct He as [_|c _ _ Hp Hl|c _ _ Hp Hl _ w1 _ _ _]; [done|..];
      rewrite Hp in Hwhy; by destruct Hwhy as [?|[?|?]].
  - intros c Ht Hd Hp Hl.
    destruct (os_path.exists_ w' _) eqn:Hx; [|done].
    destruct (cleanup_effect_residue _ _ _ _ He Hx) as [_ [?|[?|[?|?]]]];
      congruence.
  - by apply cleanup_effect_residue.
Qed.

(** C5.  For two clusters with different names whose inventory files lie
    in the same storage directory, [cleanup] of the first leaves the
    inventory file of the second and the storage directory as they are;
    a storage directory that is gone after [cleanup] was temporary and
    held nothing once the cluster's own inventory file was deleted. *)
Theorem cleanup_spares_others self a b w :
  PyStr.contains_char "/" (Cluster.name a) = false →
  PyStr.contains_char "/" (Cluster.name b) = false →
  Cluster.name a ≠ Cluster.name b →
  (∀ e, os_path.stat w (inventory_path_of self b) = Some e →
        os_path.stat (cleanup self a w).2 (inventory_path_of self b) = Some e
        ∧ os_path.stat (cleanup self a w).2 (_storage_path self)
          = os_path.stat w (_storage_path self))
  ∧ (os_path.exists_ w (_storage_path self) = true →
     os_path.exists_ (cleanup self a w).2 (_storage_path self) = false →
     _storage_path_tmp self = true
     ∧ (∃ c, os_path.stat w (inventory_path_of self a) = Some (File c))
     ∧ os.children
         (set_fs (delete (os_path.resolve w (inventory_path_of self a))) w)
         (os_path.resolve w (_storage_path self)) = []).
Proof.
  intros Ha Hb Hab.
  destruct (cleanup_inv self a w) as (w' & Hc & He). rewrite Hc. simpl.
  assert (PyStr.truthy (_storage_path self) = true →
          os_path.resolve w (inventory_path_of self a)
          = os_path.resolve w (_storage_path self) ++ [inventory_fname a]
          ∧ os_path.resolve w (inventory_path_of self b)
            = os_path.resolve w (_storage_path self) ++ [inventory_fname b]
          ∧ os_path.resolve w (inventory_path_of self b)
            ≠ os_path.resolve w (inventory_path_of self a)
          ∧ os_path.resolve w (_storage_path self)
            ≠ os_path.resolve w (inventory_path_of self a)) as Hres.
  { intros Ht. unfold inventory_path_of.
    rewrite !resolve_join by (done || by apply inventory_fname_plain).
    repeat split; [|apply app_singleton_ne_self].
    intros E%(inj (app _)).
    assert (inventory_fname b = inventory_fname a) as E' by congruence.
    apply inventory_fname_inj in E'. congruence. }
  split.
  - intros e Hbe.
    destruct He as [_|c Ht _ _ _|c Ht _ _ _ _ w1 _ _ Hch]; [done|..];
      destruct (Hres Ht) as (Hka & Hkb & Hne & Hd).
    + by rewrite !stat_delete_other.
    + exfalso. subst w1.
      rewrite stat_truthy in Hbe by apply inventory_path_truthy.
      assert (inventory_fname b ∈ @nil string) as Hin; [|by apply elem_of_nil in Hin].
      rewrite <-Hch. apply (children_elem _ _ _ e). simpl.
      rewrite <-Hkb, lookup_delete_ne by done.
      rewrite Hkb in Hbe. unfold os_path.lookup_entry in Hbe.
      rewrite Hkb. by destruct (os_path.resolve w (_storage_path self)).
  - intros Hd Hgone.
    destruct He as [_|c Ht _ _ _|c Ht _ Hp _ Htmp w1 _ _ Hch].
    + congruence.
    + destruct (Hres Ht) as (_ & _ & _ & Hne).
      unfold os_path.exists_ in *. rewrite stat_delete_other in Hgone by done.
      congruence.
    + eauto.
Qed.

(** ** Construction *)

Lemma expand_plain w p :
  PyStr.startswith_char "~" p = false → PyStr.contains_char "$" p = false →
  posixpath.expandvars w (posixpath.expanduser w p) = p.
Proof.
  intros H1 H2. unfold posixpath.expanduser. rewrite H1. simpl.
  unfold posixpath.expandvars. by rewrite H2.
Qed.

(** C8, as the code has it.  A playbook path and a storage path given
    to [__init__], each of them whether or not the other is given, are
    stored after [expanduser] and [expandvars] and nothing else: a path
    that neither starts with a tilde nor holds a dollar sign is stored as
    it was given, so that a relative path stays relative. *)
Theorem init_expands_paths groups playbook_path environment_vars storage_path
  sudo sudo_user ansible_module_dir ssh_pipelining w self w' :
  __init__ groups playbook_path environment_vars storage_path
           sudo sudo_user ansible_module_dir ssh_pipelining w
  = (Return self, w') →
  (∀ p, playbook_path = Some p → PyStr.truthy p = true →
     _playbook_path self
     = posixpath.expandvars w (posixpath.expanduser w p)
     ∧ (PyStr.startswith_char "~" p = false →
        PyStr.contains_char "$" p = false →
        _playbook_path self = p))
  ∧ (∀ s, storage_path = Some s → PyStr.truthy s = true →
     _storage_path self
     = posixpath.expandvars w (posixpath.expanduser w s)
     ∧ (PyStr.startswith_char "~" s = false →
        PyStr.contains_char "$" s = false →
        _storage_path self = s)).
Proof.
  intros Hi.
  assert (∀ p, playbook_path = Some p → PyStr.truthy p = true →
            _playbook_path self
            = posixpath.expandvars w (posixpath.expanduser w p)) as Hpb.
  { intros p -> Hp. revert Hi. unfold __init__. os_unfold. simpl.
    rewrite Hp. simpl.
    destruct (PyStr.truthy_opt storage_path); simpl.
    - destruct (os_path.exists_ w _); simpl; [by intros [= <- _]|].
      destruct (os.makedirs _ w) as [[[]|e] w1]; [|done]. by intros [= <- _].
    - destruct (os.mkdtemp w) as [[d|e] w1]; [|done]. by intros [= <- _]. }
  assert (∀ s, storage_path = Some s → PyStr.truthy s = true →
            _storage_path self
            = posixpath.expandvars w (posixpath.expanduser w s)) as Hst.
  { intros s -> Hs. revert Hi. unfold __init__. os_unfold. simpl.
    rewrite Hs. simpl.
    destruct (PyStr.truthy_opt playbook_path); simpl;
      (destruct (os_path.exists_ w _); simpl; [by intros [= <- _]|];
       destruct (os.makedirs _ w) as [[[]|e] w1]; [|done];
       by intros [= <- _]). }
  split.
  - intros p Hp Ht. split; [by apply Hpb|].
    intros H1 H2. rewrite (Hpb p Hp Ht). by apply expand_plain.
  - intros s Hs Ht. split; [by apply Hst|].
    intros H1 H2. rewrite (Hst s Hs Ht). by apply expand_plain.
Qed.

(** * Worked examples *)

Lemma ex_frontend_mapped :
  ∃ node, node ∈ Cluster.get_all_nodes (ex_cluster "a")
          ∧ Node.kind node ∈ dom (groups (ex_provider {[ "frontend" := ["web"] ]})).
Proof.
  exists ex_node. split; [by left|]. apply elem_of_dom. by eexists.
Defined.

Lemma no_matching_node_no_setup_witness :
  (∀ node, node ∈ Cluster.get_all_nodes (ex_cluster "a") →
           Node.kind node ∉ dom (groups (ex_provider {[ "worker" := ["web"] ]})))
  ∧ setup_cluster (ex_provider {[ "worker" := ["web"] ]}) (ex_cluster "a")
                  (ex_world 2)
    = (Return (ex_provider {[ "worker" := ["web"] ]}, true),
       with_ansible_env (ex_cluster "a") (ex_world 2))
  ∧ calls (setup_cluster (ex_provider {[ "worker" := ["web"] ]})
                         (ex_cluster "a") (ex_world 2)).2
    = calls (ex_world 2).
Proof.
  assert (∀ node, node ∈ Cluster.get_all_nodes (ex_cluster "a") →
            Node.kind node ∉ dom (groups (ex_provider {[ "worker" := ["web"] ]})))
    as H.
  { intros node ->%list_elem_of_singleton. apply not_elem_of_dom. reflexivity. }
  split; [exact H|].
  destruct (no_matching_node_no_setup _ _ (ex_world 2) H) as (_ & Hs & Hc & _).
  split; [exact Hs|exact Hc].
Defined.

Lemma exit_code_decides_witness :
  (∃ node, node ∈ Cluster.get_all_nodes (ex_cluster "a")
           ∧ Node.kind node ∈ dom (groups (ex_provider {[ "frontend" := ["web"] ]})))
  ∧ (setup_cluster (ex_provider {[ "frontend" := ["web"] ]}) (ex_cluster "a")
                   (ex_world 2)).1
    = Return (ex_provider {[ "frontend" := ["web"] ]}, false)
  ∧ (setup_cluster (ex_provider {[ "frontend" := ["web"] ]}) (ex_cluster "a")
                   (ex_world 0)).1
    = Return (ex_provider {[ "frontend" := ["web"] ]}, true).
Proof.
  split; [exact ex_frontend_mapped|].
  split.
  - destruct (exit_code_decides _ _ (ex_world 2) ex_frontend_mapped)
      as (_ & _ & Hrun).
    rewrite (Hrun (ex_provider {[ "frontend" := ["web"] ]})
               "/tmp/ec/ansible-inventory.a"
               (_build_inventory (ex_provider {[ "frontend" := ["web"] ]})
                                 (ex_cluster "a") (ex_world 2)).2 2)
      by (vm_compute; reflexivity).
    reflexivity.
  - destruct (exit_code_decides _ _ (ex_world 0) ex_frontend_mapped)
      as (_ & _ & Hrun).
    rewrite (Hrun (ex_provider {[ "frontend" := ["web"] ]})
               "/tmp/ec/ansible-inventory.a"
               (_build_inventory (ex_provider {[ "frontend" := ["web"] ]})
                                 (ex_cluster "a") (ex_world 0)).2 0)
      by (vm_compute; reflexivity).
    reflexivity.
Defined.


Lemma inventory_file_format_witness :
  (∃ node, node ∈ Cluster.get_all_nodes (ex_cluster "a")
           ∧ Node.kind node ∈ dom (groups (ex_provider {[ "frontend" := ["web"] ]})))
  ∧ os_path.stat
      (_build_inventory (ex_provider {[ "frontend" := ["web"] ]})
                        (ex_cluster "a") (ex_world 0)).2
      "/tmp/ec/ansible-inventory.a"
    = Some (File ex_inventory).
Proof.
  split; [exact ex_frontend_mapped|].
  destruct (inventory_file_format _ _ (ex_world 0) ex_frontend_mapped)
    as (Hfile & _).
  destruct (Hfile (ex_provider {[ "frontend" := ["web"] ]})
              "/tmp/ec/ansible-inventory.a"
              (_build_inventory (ex_provider {[ "frontend" := ["web"] ]})
                                (ex_cluster "a") (ex_world 0)).2)
    as [_ ->]; [vm_compute; reflexivity|].
  vm_compute. reflexivity.
Defined.

Lemma cleanup_spares_others_witness :
  PyStr.contains_char "/" (Cluster.name (ex_cluster "a")) = false
  ∧ PyStr.contains_char "/" (Cluster.name (ex_cluster "b")) = false
  ∧ Cluster.name (ex_cluster "a") ≠ Cluster.name (ex_cluster "b")
  ∧ os_path.stat ex_world_ab "/tmp/ec/ansible-inventory.b"
    = Some (File ex_inventory)
  ∧ os_path.stat
      (cleanup (ex_provider {[ "frontend" := ["web"] ]}) (ex_cluster "a")
               ex_world_ab).2
      "/tmp/ec/ansible-inventory.b"
    = Some (File ex_inventory)
  ∧ os_path.stat
      (cleanup (ex_provider {[ "frontend" := ["web"] ]}) (ex_cluster "a")
               ex_world_ab).2
      "/tmp/ec"
    = Some Dir.
Proof.
  assert (Cluster.name (ex_cluster "a") ≠ Cluster.name (ex_cluster "b")) as Hab
    by discriminate.
  split; [reflexivity|]. split; [reflexivity|]. split; [exact Hab|].
  split; [vm_compute; reflexivity|].
  destruct (cleanup_spares_others (ex_provider {[ "frontend" := ["web"] ]})
              (ex_cluster "a") (ex_cluster "b") ex_world_ab
              eq_refl eq_refl Hab) as [Hkeep _].
  destruct (Hkeep (File ex_inventory)) as [Hb Hd]; [vm_compute; reflexivity|].
  split; [exact Hb|].
  transitivity (os_path.stat ex_world_ab "/tmp/ec");
    [exact Hd|vm_compute; reflexivity].
Defined.

Lemma cleanup_idempotent_total_witness :
  os_path.exists_ (ex_world 0)
    (inventory_path_of (ex_provider {[ "frontend" := ["web"] ]}) (ex_cluster "a"))
  = false
  ∧ cleanup (ex_provider {[ "frontend" := ["web"] ]}) (ex_cluster "a")
            (ex_world 0)
    = (Return (), ex_world 0)
  ∧ os_path.exists_
      (cleanup (ex_provider {[ "frontend" := ["web"] ]}) (ex_cluster "a")
               ex_world_ab).2
      (inventory_path_of (ex_provider {[ "frontend" := ["web"] ]}) (ex_cluster "a"))
    = false.
Proof.
  split; [reflexivity|]. split.
  - apply (cleanup_idempotent_total (ex_provider {[ "frontend" := ["web"] ]})
             (ex_cluster "a") (ex_world 0)).
    left. reflexivity.
  - destruct (cleanup_idempotent_total (ex_provider {[ "frontend" := ["web"] ]})
                (ex_cluster "a") ex_world_ab) as (_ & _ & _ & _ & Hgone & _).
    apply (Hgone ex_inventory); [reflexivity|reflexivity|vm_compute; reflexivity|].
    apply not_elem_of_empty.
Defined.

Lemma verbosity_flag_witness :
  0 < verbosity (ex_world_at 10 0)
  ∧ "-" +:+ PyStr.repeat_char "v" (Z.to_nat (verbosity (ex_world_at 10 0)))
    = "-vv"
  ∧ logging_WARNING ≤ log_level (ex_world_at 30 0)
  ∧ command_line (ex_provider ∅) (ex_world_at 30 0) "/tmp/ec/ansible-inventory.a"
    = ["ansible-playbook"; "/srv/site.yml";
       "--inventory=/tmp/ec/ansible-inventory.a"; "--sudo"; "--sudo-user=root"].
Proof.
  assert (0 < verbosity (ex_world_at 10 0)) as Hv by reflexivity.
  assert (logging_WARNING ≤ log_level (ex_world_at 30 0)) as Hl
    by (vm_compute; discriminate).
  split; [exact Hv|]. split; [reflexivity|]. split; [exact Hl|].
  destruct (verbosity_flag (ex_provider ∅) (ex_world_at 30 0)
              "/tmp/ec/ansible-inventory.a") as (_ & _ & _ & _ & _ & Hq & _).
  rewrite (Hq Hl). reflexivity.
Defined.

(** A provider made with [ssh_pipelining=False]: the child process gets
    [ANSIBLE_SSH_PIPELINING=yes] all the same. *)
Lemma pipelining_always_on_witness :
  ssh_pipelining (ex_provider {[ "frontend" := ["web"] ]}) = false
  ∧ map (λ c : list string * gmap string string,
           c.2 !! "ANSIBLE_SSH_PIPELINING")
        (calls (setup_cluster (ex_provider {[ "frontend" := ["web"] ]})
                              (ex_cluster "a") (ex_world 0)).2)
    = [Some "yes"].
Proof.
  split; [reflexivity|].
  destruct (proj1 (pipelining_always_on
                     (ex_provider {[ "frontend" := ["web"] ]})
                     (ex_cluster "a") (ex_world 0) false)
              (ex_provider {[ "frontend" := ["web"] ]})
              "/tmp/ec/ansible-inventory.a"
              (_build_inventory (ex_provider {[ "frontend" := ["web"] ]})
                                (ex_cluster "a") (ex_world 0)).2 0)
    as (cmd & env & Hc & He);
    [vm_compute; reflexivity..|].
  change (set_ssh_pipelining false (ex_provider {[ "frontend" := ["web"] ]}))
    with (ex_provider {[ "frontend" := ["web"] ]}) in Hc.
  rewrite Hc. simpl. by rewrite He.
Defined.

(** A relative playbook path and a relative storage path stay as they
    were given. *)
Lemma init_keeps_relative_paths :
  outcome_map
    (λ self, (_playbook_path self, os_path.isabs (_playbook_path self),
              _storage_path self, os_path.isabs (_storage_path self)))
    (__init__ {[ "frontend" := ["web"] ]} (Some "playbooks/site.yml") ∅
              (Some "inventories") true "root" None true (ex_world 0)).1
  = Return ("playbooks/site.yml", false, "inventories", false).
Proof. vm_compute. reflexivity. Qed.

(** A playbook path given alone and a storage path given alone are
    expanded. *)
Lemma init_expands_paths_witness :
  outcome_map _playbook_path
    (__init__ {[ "frontend" := ["web"] ]} (Some "~/playbooks/site.yml") ∅
              None true "root" None true (ex_world 0)).1
  = Return "/home/ec/playbooks/site.yml"
  ∧ outcome_map _storage_path
      (__init__ {[ "frontend" := ["web"] ]} None ∅
                (Some "$HOME/inventories") true "root" None true (ex_world 0)).1
    = Return "/home/ec/inventories".
Proof.
  split.
  - destruct (__init__ {[ "frontend" := ["web"] ]}
                (Some "~/playbooks/site.yml") ∅ None true "root" None true
                (ex_world 0))
      as [[self|e] w'] eqn:Hi; [|vm_compute in Hi; discriminate Hi].
    destruct (init_expands_paths _ _ _ _ _ _ _ _ _ _ _ Hi) as [Hp _].
    destruct (Hp "~/playbooks/site.yml" eq_refl eq_refl) as [Hq _].
    simpl. rewrite Hq. reflexivity.
  - destruct (__init__ {[ "frontend" := ["web"] ]} None ∅
                (Some "$HOME/inventories") true "root" None true (ex_world 0))
      as [[self|e] w'] eqn:Hi; [|vm_compute in Hi; discriminate Hi].
    destruct (init_expands_paths _ _ _ _ _ _ _ _ _ _ _ Hi) as [_ Hs].
    destruct (Hs "$HOME/inventories" eq_refl eq_refl) as [Hq _].
    simpl. rewrite Hq. reflexivity.
Defined.

(** * Further properties *)

(** ** The inventory document, continued *)

Lemma document_hosts self cluster (g : string) :
  default [] (build_document self cluster !! g)
  = hosts_of_group self (Cluster.get_all_nodes cluster) g.
Proof.
  rewrite build_document_lookup. by destruct (hosts_of_group _ _ _).
Qed.

Lemma document_ext self1 cluster1 self2 cluster2 :
  (∀ g, hosts_of_group self1 (Cluster.get_all_nodes cluster1) g
        = hosts_of_group self2 (Cluster.get_all_nodes cluster2) g) →
  build_document self1 cluster1 = build_document self2 cluster2.
Proof.
  intros H. apply map_eq. intros g. by rewrite !build_document_lookup, H.
Qed.

(** X1.  The nodes whose kind is not in [groups] are passed over: the
    document is the one of the cluster without them. *)
Theorem document_skips_unmapped_nodes self cluster :
  build_document self cluster =
  build_document self
    (set_nodes (filter (λ node, Node.kind node ∈ dom (groups self))
                       (Cluster.get_all_nodes cluster)) cluster).
Proof.
  apply document_ext. intros g. simpl.
  induction (Cluster.get_all_nodes cluster) as [|n ns IH]; [done|].
  rewrite filter_cons. case_decide as Hn; simpl.
  - by rewrite IH.
  - apply not_elem_of_dom in Hn. by rewrite Hn, IH.
Qed.

(** X2.  The environment overrides of a kind that is not in [groups] are
    never used: two tables of overrides that agree on the kinds of
    [groups] give the same document. *)
Theorem unmapped_overrides_inert self cluster env :
  (∀ kind, kind ∈ dom (groups self) → env !! kind = environment self !! kind) →
  build_document (set_environment env self) cluster
  = build_document self cluster.
Proof.
  intros H. apply document_ext. intros g.
  induction (Cluster.get_all_nodes cluster) as [|n ns IH]; [done|].
  simpl. rewrite IH. f_equal.
  destruct (groups self !! Node.kind n) as [gs|] eqn:Hg; [|done]. simpl.
  assert (host_of (set_environment env self) n = host_of self n) as ->; [|done].
  unfold host_of, extra_vars. simpl. rewrite H; [done|].
  apply elem_of_dom. by eexists.
Qed.

(** X3.  The variables of a host are the login-user override, first, and
    one [key=value] for each override of the node's kind, and no other. *)
Theorem extra_vars_spec self node :
  (∃ rest, extra_vars self node
           = ("ansible_ssh_user=" +:+ Node.image_user node) :: rest
           ∧ length rest
             = size (default ∅ (environment self !! Node.kind node))
           ∧ ∀ x, x ∈ rest ↔
               ∃ k v, default ∅ (environment self !! Node.kind node) !! k
                      = Some v
                      ∧ x = k +:+ "=" +:+ v).
Proof.
  unfold extra_vars. eexists. split; [done|].
  destruct (environment self !! Node.kind node) as [vars|]; simpl.
  - split; [by rewrite length_map, length_map_to_list|].
    intros x. rewrite list_elem_of_In, in_map_iff. split.
    + intros [[k v] [<- Hkv%list_elem_of_In%elem_of_map_to_list]]. eauto.
    + intros (k & v & Hkv & ->). exists (k, v). split; [done|].
      by apply list_elem_of_In, elem_of_map_to_list.
  - split; [done|]. intros x. split; [by intros ?%elem_of_nil|].
    intros (k & v & Hkv & _). by rewrite lookup_empty in Hkv.
Qed.

(** X4.  A host entry is in a group of the document exactly when it is
    the entry of a node of the cluster whose kind lists the group. *)
Theorem document_membership self cluster (g : string) (h : host) :
  h ∈ default [] (build_document self cluster !! g) ↔
  ∃ node gs, node ∈ Cluster.get_all_nodes cluster
             ∧ groups self !! Node.kind node = Some gs ∧ g ∈ gs
             ∧ h = host_of self node.
Proof.
  rewrite document_hosts. unfold hosts_of_group.
  rewrite list_elem_of_In, in_flat_map. split.
  - intros (node & Hn%list_elem_of_In & Hh).
    apply in_flat_map in Hh as (g' & Hg' & Hh).
    destruct (groups self !! Node.kind node) as [gs|] eqn:Hgs; [|done].
    simpl in Hg'. case_bool_decide as Hg; [|done]. subst g'.
    destruct Hh as [<-|[]]. exists node, gs.
    apply list_elem_of_In in Hg'. done.
  - intros (node & gs & Hn & Hgs & Hg & ->). exists node.
    split; [by apply list_elem_of_In|]. rewrite Hgs. simpl.
    apply in_flat_map. exists g. split; [by apply list_elem_of_In|].
    rewrite bool_decide_eq_true_2 by done. by left.
Qed.

Lemma flat_map_select {A} (g : string) (x : A) (gs : list string) :
  NoDup gs →
  flat_map (λ g', if bool_decide (g = g') then [x] else []) gs
  = if bool_decide (g ∈ gs) then [x] else [].
Proof.
  induction 1 as [|g' gs Hg' _ IH]; [done|]. simpl. rewrite IH.
  destruct (decide (g = g')) as [->|Hne].
  - rewrite (bool_decide_eq_true_2 (g' = g')) by done.
    rewrite (bool_decide_eq_true_2 (g' ∈ g' :: gs)) by left.
    by rewrite (bool_decide_eq_false_2 (g' ∈ gs)).
  - rewrite (bool_decide_eq_false_2 (g = g')) by done. simpl.
    rewrite (bool_decide_ext (g ∈ g' :: gs) (g ∈ gs)); [done|].
    rewrite elem_of_cons. split; [by intros [?|?]|by right].
Qed.

(** X5.  When no kind lists a group twice, the hosts of a group are the
    entries of the nodes whose kind lists the group, in the order of the
    nodes of the cluster. *)
Theorem document_keeps_node_order self cluster (g : string) :
  (∀ kind gs, groups self !! kind = Some gs → NoDup gs) →
  default [] (build_document self cluster !! g)
  = map (host_of self)
        (filter (λ node, g ∈ default [] (groups self !! Node.kind node))
                (Cluster.get_all_nodes cluster)).
Proof.
  intros Hnd. rewrite document_hosts. unfold hosts_of_group.
  induction (Cluster.get_all_nodes cluster) as [|n ns IH]; [done|].
  simpl. rewrite IH, filter_cons.
  rewrite flat_map_select.
  - case_bool_decide; by case_decide.
  - destruct (groups self !! Node.kind n) as [gs|] eqn:Hgs; simpl.
    + by eapply Hnd.
    + constructor.
Qed.

(** ** Writing the inventory, continued *)

Lemma set_fs_id w : set_fs id w = w.
Proof. by destruct w. Qed.

Lemma set_fs_set_fs f g w : set_fs g (set_fs f w) = set_fs (g ∘ f) w.
Proof. done. Qed.

Lemma set_fs_ext f g w : f (fs w) = g (fs w) → set_fs f w = set_fs g w.
Proof. unfold set_fs. by intros ->. Qed.

Lemma removelast_ne {A} (k : list A) : k ≠ [] → removelast k ≠ k.
Proof.
  intros Hk E. destruct k as [|x k']; [done|].
  pose proof (app_removelast_last x Hk) as H.
  rewrite E in H. by apply app_singleton_neq in H.
Qed.

Lemma write_file_inv_full p content w w' :
  os.write_file p content w = (Return (), w') →
  PyStr.truthy p = true ∧ os_path.resolve w p ≠ []
  ∧ os_path.lookup_entry w (removelast (os_path.resolve w p)) = Some Dir
  ∧ fs w !! os_path.resolve w p ≠ Some Dir
  ∧ (os_path.resolve w p ∉ locked w)
  ∧ w' = set_fs (insert (os_path.resolve w p) (File content)) w.
Proof.
  unfold os.write_file. destruct (PyStr.truthy p); simpl; [|done].
  case_bool_decide as Hk; simpl; [done|].
  destruct (os_path.lookup_entry w _) as [[]|]; [done| |done].
  destruct (fs w !! _) as [[]|] eqn:E; try done; case_bool_decide; try done;
    by intros [= <-].
Qed.

Lemma write_file_twice p content w w' :
  os.write_file p content w = (Return (), w') →
  os.write_file p content w' = (Return (), w').
Proof.
  intros (Hp & Hk & Hd & Hf & Hl & ->)%write_file_inv_full.
  rewrite write_file_ok; rewrite ?resolve_set_fs; try done.
  - simpl. rewrite set_fs_set_fs. f_equal. apply set_fs_ext. simpl.
    by rewrite insert_insert_eq.
  - unfold os_path.lookup_entry in *.
    destruct (removelast (os_path.resolve w p)) eqn:E; [done|].
    simpl. rewrite lookup_insert_ne; [done|]. rewrite <-E.
    intros E'. by apply (removelast_ne _ Hk).
  - simpl. by rewrite lookup_insert_eq.
Qed.

(** The steps of a [_build_inventory] that returned a path: the storage
    directory is the one of [self], or a new temporary one when [self]
    had none, and the file is written in the world that results. *)
Lemma build_inventory_written self cluster w self1 path w1 :
  _build_inventory self cluster w = (Return (self1, Some path), w1) →
  build_document self cluster ≠ ∅
  ∧ path = inventory_path_of self1 cluster
  ∧ ∃ w0,
      ((w0 = w ∧ self1 = self
        ∧ (_storage_path_tmp self = false
           ∨ PyStr.truthy (_storage_path self) = true))
       ∨ (∃ d, os.mkdtemp w = (Return d, w0)
               ∧ self1 = set_storage_path d self
               ∧ _storage_path_tmp self = true
               ∧ PyStr.truthy (_storage_path self) = false
               ∧ PyStr.truthy d = true))
      ∧ os.write_file path (inventory_text (build_document self cluster)) w0
        = (Return (), w1).
Proof.
  unfold _build_inventory, inventory_path_of.
  case_bool_decide as Hdoc; [|done]. os_unfold. split; [done|].
  destruct (_storage_path_tmp self) eqn:Htmp.
  - destruct (PyStr.truthy (_storage_path self)) eqn:Ht; simpl in *.
    + destruct (os.write_file _ _ w) as [[[]|e] w2] eqn:Hw; [|done].
      injection H as <- <- <-. split; [done|]. exists w. split; [|done].
      left. eauto.
    + destruct (os.mkdtemp w) as [[d|e] w0] eqn:Hmk; [|done].
      destruct (os.write_file _ _ w0) as [[[]|e] w2] eqn:Hw; [|done].
      injection H as <- <- <-. split; [done|]. exists w0. split; [|done].
      right. exists d. repeat split; try done.
      by apply mkdtemp_inv in Hmk as [_ [(d' & [= <-] & ?)|(? & ?)]].
  - simpl in *.
    destruct (os.write_file _ _ w) as [[[]|e] w2] eqn:Hw; [|done].
    injection H as <- <- <-. split; [done|]. exists w. split; [|done].
    left. eauto.
Qed.

(** When the storage directory is there and the inventory path is free
    to be written, the inventory file is written. *)
Lemma build_inventory_ok self cluster w :
  build_document self cluster ≠ ∅ →
  PyStr.truthy (_storage_path self) = true →
  os_path.stat w (_storage_path self) = Some Dir →
  PyStr.contains_char "/" (Cluster.name cluster) = false →
  fs w !! (os_path.resolve w (_storage_path self) ++ [inventory_fname cluster])
  ≠ Some Dir →
  os_path.resolve w (_storage_path self) ++ [inventory_fname cluster]
  ∉ locked w →
  os_path.resolve w (inventory_path_of self cluster)
  = os_path.resolve w (_storage_path self) ++ [inventory_fname cluster]
  ∧ _build_inventory self cluster w =
    (Return (self, Some (inventory_path_of self cluster)),
     set_fs (insert (os_path.resolve w (inventory_path_of self cluster))
                    (File (inventory_text (build_document self cluster)))) w).
Proof.
  intros Hdoc Hst Hdir Hname Hk Hl.
  pose proof (resolve_join w (_storage_path self) (inventory_fname cluster)
                Hst (inventory_fname_plain _ Hname)) as Hres.
  fold (inventory_path_of self cluster) in Hres. split; [done|].
  assert (os.write_file (inventory_path_of self cluster)
            (inventory_text (build_document self cluster)) w
          = (Return (),
             set_fs (insert (os_path.resolve w (inventory_path_of self cluster))
                            (File (inventory_text
                                     (build_document self cluster)))) w))
    as Hw.
  { rewrite write_file_ok; rewrite ?Hres; try done.
    - apply inventory_path_truthy.
    - by destruct (os_path.resolve w (_storage_path self)).
    - rewrite removelast_last. unfold os_path.stat in Hdir.
      by rewrite Hst in Hdir. }
  unfold inventory_path_of in *.
  unfold _build_inventory. rewrite bool_decide_eq_true_2 by done.
  os_unfold. rewrite Hst. simpl.
  destruct (_storage_path_tmp self); by rewrite Hw.
Qed.

(** X6.  [_build_inventory] is idempotent: called again for the same
    cluster in the world it left, it returns the same path and leaves
    that world as it is. *)
Theorem build_inventory_idempotent self cluster w self1 path w1 :
  _build_inventory self cluster w = (Return (self1, Some path), w1) →
  _build_inventory self1 cluster w1 = (Return (self1, Some path), w1).
Proof.
  intros (Hdoc & -> & w0 & Hprep & Hw)%build_inventory_written.
  apply write_file_twice in Hw.
  assert (build_document self1 cluster = build_document self cluster
          ∧ (_storage_path_tmp self1 = false
             ∨ PyStr.truthy (_storage_path self1) = true)) as [Hd Ht].
  { destruct Hprep as [(_ & -> & H)|(d & _ & -> & H1 & _ & H2)]; [done|].
    split; [done|]. by right. }
  unfold inventory_path_of in *.
  unfold _build_inventory. rewrite Hd, bool_decide_eq_true_2 by done.
  os_unfold. destruct Ht as [->| ->]; simpl.
  - by rewrite Hw.
  - destruct (_storage_path_tmp self1); by rewrite Hw.
Qed.

(** X7.  A provider that has a storage directory changes nothing but the
    inventory file of the cluster when it builds the inventory, whatever
    the outcome: every other entry, the permissions, the environment and
    the processes launched stay as they were. *)
Theorem build_inventory_frame self cluster w :
  _storage_path_tmp self = false ∨ PyStr.truthy (_storage_path self) = true →
  (∀ k, k ≠ os_path.resolve w (inventory_path_of self cluster) →
        fs (_build_inventory self cluster w).2 !! k = fs w !! k)
  ∧ locked (_build_inventory self cluster w).2 = locked w
  ∧ environ (_build_inventory self cluster w).2 = environ w
  ∧ calls (_build_inventory self cluster w).2 = calls w.
Proof.
  intros Hst.
  destruct (_build_inventory self cluster w) as [[[self1 [path|]]|e] w1] eqn:Hb.
  - apply build_inventory_written in Hb as (_ & -> & w0 & Hprep & Hw).
    destruct Hprep as [(-> & -> & _)|(d & _ & _ & Htmp & Ht & _)];
      [|destruct Hst; congruence].
    apply write_file_inv_full in Hw as (_ & _ & _ & _ & _ & ->). simpl.
    split; [|done]. intros k Hk. by rewrite lookup_insert_ne.
  - apply build_inventory_inv in Hb as [_ [(_ & -> & _)|[H|H]]]; [done|..].
    + by destruct H as (? & ? & [=] & _).
    + by destruct H as (? & [=] & _).
  - simpl. unfold _build_inventory in Hb. case_bool_decide; [|done].
    os_unfold.
    assert (os.write_file (inventory_path_of self cluster)
              (inventory_text (build_document self cluster)) w = (Raise e, w1))
      as Hw.
    { unfold inventory_path_of.
      destruct Hst as [Ht|Ht]; rewrite Ht in Hb; simpl in Hb.
      - by destruct (os.write_file _ _ w) as [[[]|e'] w2]; simplify_eq.
      - destruct (_storage_path_tmp self); simpl in Hb;
          by destruct (os.write_file _ _ w) as [[[]|e'] w2]; simplify_eq. }
    by apply write_file_raises in Hw as [-> _].
Qed.

(** X8.  A cluster with hosts is not set up without its storage
    directory: when the directory is gone, or is not a directory,
    [_build_inventory] does not create it again; opening the inventory
    file raises [IOError], which [setup_cluster] lets through, and the
    world stays as it is. *)
Theorem setup_needs_storage_directory self cluster w :
  build_document self cluster ≠ ∅ →
  PyStr.truthy (_storage_path self) = true →
  os_path.stat w (_storage_path self) ≠ Some Dir →
  PyStr.contains_char "/" (Cluster.name cluster) = false →
  ∃ msg, _build_inventory self cluster w = (Raise (IOError msg), w)
         ∧ setup_cluster self cluster w = (Raise (IOError msg), w).
Proof.
  intros Hdoc Hst Hdir Hname.
  pose proof (resolve_join w (_storage_path self) (inventory_fname cluster)
                Hst (inventory_fname_plain _ Hname)) as Hres.
  assert (os.write_file
            (os_path.join (_storage_path self) (inventory_fname cluster))
            (inventory_text (build_document self cluster)) w
          = (Raise (IOError "open: no such directory"), w)) as Hw.
  { unfold os.write_file.
    rewrite join_truthy by apply inventory_fname_truthy. simpl.
    rewrite Hres, bool_decide_eq_false_2, removelast_last
      by (by destruct (os_path.resolve w (_storage_path self))).
    simpl. rewrite stat_truthy in Hdir by done.
    by destruct (os_path.lookup_entry w _) as [[]|]. }
  exists "open: no such directory".
  assert (_build_inventory self cluster w
          = (Raise (IOError "open: no such directory"), w)) as Hb.
  { unfold _build_inventory. rewrite bool_decide_eq_true_2 by done.
    os_unfold. rewrite Hst. simpl.
    destruct (_storage_path_tmp self); by rewrite Hw. }
  split; [done|]. by rewrite setup_cluster_bind, Hb.
Qed.

(** ** Clean-up, continued *)

Lemma stat_insert_other w (k : list string) e p :
  os_path.resolve w p ≠ k →
  os_path.stat (set_fs (insert k e) w) p = os_path.stat w p.
Proof.
  intros H. unfold os_path.stat. destruct (PyStr.truthy p); [|done].
  rewrite resolve_set_fs. unfold os_path.lookup_entry.
  destruct (os_path.resolve w p); [done|]. simpl. by rewrite lookup_insert_ne.
Qed.

Lemma set_fs_delete_insert w (k : list string) e :
  fs w !! k = None → set_fs (delete k) (set_fs (insert k e) w) = w.
Proof.
  intros H. rewrite set_fs_set_fs, <-(set_fs_id w) at 1.
  rewrite set_fs_set_fs. rewrite <-(set_fs_id w) at 2. apply set_fs_ext.
  simpl. by apply delete_insert_id.
Qed.

(** [cleanup], step by step, for a temporary storage directory that holds
    nothing once the inventory file is removed. *)
Lemma cleanup_run_temporary self cluster w1 w2 r w3 :
  PyStr.truthy (_storage_path self) = true →
  os_path.exists_ w1 (_storage_path self) = true →
  os_path.exists_ w1 (inventory_path_of self cluster) = true →
  os.unlink (inventory_path_of self cluster) w1 = (Return (), w2) →
  _storage_path_tmp self = true →
  os.listdir (_storage_path self) w2 = (Return [], w2) →
  os.rmtree (_storage_path self) w2 = (Return r, w3) →
  cleanup self cluster w1 = (Return (), w3).
Proof.
  intros Ht Hd Hp Hu Htmp Hls Hrm. unfold cleanup, inventory_path_of in *.
  os_unfold. simpl. rewrite Ht, Hd. simpl. rewrite Hp, Hu, Htmp, Hls. simpl.
  rewrite Hrm. by destruct r.
Qed.

(** X9.  With a storage directory of the user, writing the inventory of a
    cluster and then cleaning up gives back the world as it was before. *)
Theorem build_then_cleanup_restores self cluster w :
  _storage_path_tmp self = false →
  build_document self cluster ≠ ∅ →
  PyStr.truthy (_storage_path self) = true →
  os_path.stat w (_storage_path self) = Some Dir →
  PyStr.contains_char "/" (Cluster.name cluster) = false →
  fs w !! (os_path.resolve w (_storage_path self) ++ [inventory_fname cluster])
  = None →
  os_path.resolve w (_storage_path self) ++ [inventory_fname cluster]
  ∉ locked w →
  ∃ w1, _build_inventory self cluster w
        = (Return (self, Some (inventory_path_of self cluster)), w1)
        ∧ os_path.exists_ w1 (inventory_path_of self cluster) = true
        ∧ cleanup self cluster w1 = (Return (), w).
Proof.
  intros Htmp Hdoc Hst Hdir Hname Hnone Hl.
  destruct (build_inventory_ok self cluster w) as [Hres Hb]; try done.
  { by rewrite Hnone. }
  pose proof (inventory_path_truthy self cluster) as Hpt.
  assert (os_path.resolve w (inventory_path_of self cluster) ≠ []) as Hk
    by (rewrite Hres; by destruct (os_path.resolve w (_storage_path self))).
  eexists. split; [exact Hb|].
  pose proof (stat_written _ (inventory_text (build_document self cluster))
                w Hpt Hk) as Hstat.
  split; [by eapply stat_exists|].
  destruct (cleanup_inv self cluster
              (set_fs (insert (os_path.resolve w (inventory_path_of self cluster))
                        (File (inventory_text (build_document self cluster))))
                      w)) as (w' & -> & He).
  f_equal.
  destruct He as [H|c _ _ _ _|c _ _ _ _ Htmp' w1 _ _ _].
  - exfalso. destruct H as [?|[H|[H|[H|H]]]]; try congruence.
    + apply exists_false_stat in H.
      rewrite stat_insert_other in H; [congruence|].
      rewrite Hres. apply app_singleton_ne_self.
    + rewrite resolve_set_fs in H. simpl in H. by rewrite Hres in H.
  - rewrite resolve_set_fs. apply set_fs_delete_insert. by rewrite Hres.
  - congruence.
Qed.

(** X10.  With a temporary storage directory that held nothing, writing
    the inventory of a cluster and then cleaning up removes the inventory
    file and the directory: what is left is the world before, without the
    directory. *)
Theorem build_then_cleanup_reclaims self cluster w :
  _storage_path_tmp self = true →
  build_document self cluster ≠ ∅ →
  PyStr.truthy (_storage_path self) = true →
  os_path.stat w (_storage_path self) = Some Dir →
  os_path.resolve w (_storage_path self) ≠ [] →
  os.children w (os_path.resolve w (_storage_path self)) = [] →
  (∀ q, q ∈ locked w →
        os.below (os_path.resolve w (_storage_path self)) q = false) →
  PyStr.contains_char "/" (Cluster.name cluster) = false →
  ∃ w1, _build_inventory self cluster w
        = (Return (self, Some (inventory_path_of self cluster)), w1)
        ∧ cleanup self cluster w1
          = (Return (),
             set_fs (filter (λ kv, os.below (os_path.resolve w (_storage_path self))
                                            kv.1 = false)) w)
        ∧ os_path.exists_ (cleanup self cluster w1).2 (_storage_path self)
          = false.
Proof.
  intros Htmp Hdoc Hst Hdir Hkd Hch Hlocked Hname.
  set (kd := os_path.resolve w (_storage_path self)) in *.
  assert (fs w !! (kd ++ [inventory_fname cluster]) = None) as Hnone.
  { destruct (fs w !! _) as [e|] eqn:E; [|done].
    apply children_elem in E. rewrite Hch in E. by apply elem_of_nil in E. }
  assert (kd ++ [inventory_fname cluster] ∉ locked w) as Hl.
  { intros Hin. apply Hlocked in Hin. unfold os.below in Hin.
    by rewrite strip_prefix_app in Hin. }
  destruct (build_inventory_ok self cluster w) as [Hres Hb]; try done.
  { fold kd. by rewrite Hnone. }
  fold kd in Hres.
  pose proof (inventory_path_truthy self cluster) as Hpt.
  assert (os_path.resolve w (inventory_path_of self cluster) ≠ []) as Hk
    by (rewrite Hres; by destruct kd).
  pose proof (stat_written _ (inventory_text (build_document self cluster))
                w Hpt Hk) as Hstat.
  eexists. split; [exact Hb|].
  assert (cleanup self cluster
            (set_fs (insert (os_path.resolve w (inventory_path_of self cluster))
                      (File (inventory_text (build_document self cluster)))) w)
          = (Return (),
             set_fs (filter (λ kv, os.below kd kv.1 = false)) w)) as Hc.
  { eapply (cleanup_run_temporary _ _ _ w ()); try done.
    - eapply stat_exists. rewrite stat_insert_other; [done|].
      rewrite Hres. apply app_singleton_ne_self.
    - by eapply stat_exists.
    - unfold os.unlink. rewrite Hstat, resolve_set_fs. simpl.
      rewrite bool_decide_eq_false_2 by (by rewrite Hres).
      f_equal. apply set_fs_delete_insert. by rewrite Hres.
    - unfold os.listdir. rewrite Hdir. fold kd. by rewrite Hch.
    - unfold os.rmtree. rewrite Hdir. fold kd.
      rewrite (bool_decide_eq_false_2 (kd = [])) by done. simpl.
      destruct (existsb _ _) eqn:Hex; [|done].
      apply existsb_exists in Hex as (q & Hq & Hb').
      apply list_elem_of_In, elem_of_elements, Hlocked in Hq. congruence. }
  split; [exact Hc|]. rewrite Hc. simpl.
  unfold os_path.exists_. apply bool_decide_eq_false_2.
  rewrite stat_truthy by done. intros [e He].
  unfold os_path.lookup_entry in He. rewrite resolve_set_fs in He. fold kd in He.
  destruct kd as [|x kd'] eqn:Ekd; [done|]. simpl in He.
  apply map_lookup_filter_Some in He as [_ He]. simpl in He.
  by rewrite below_self in He.
Qed.

(** X11.  [cleanup] of a provider with a storage directory of the user
    changes nothing but the inventory file of the cluster: every other
    entry, the storage directory among them, the permissions, the
    environment and the processes launched stay as they were. *)
Theorem cleanup_keeps_user_storage self cluster w :
  _storage_path_tmp self = false →
  (∀ k, k ≠ os_path.resolve w (inventory_path_of self cluster) →
        fs (cleanup self cluster w).2 !! k = fs w !! k)
  ∧ locked (cleanup self cluster w).2 = locked w
  ∧ environ (cleanup self cluster w).2 = environ w
  ∧ calls (cleanup self cluster w).2 = calls w.
Proof.
  intros Htmp. destruct (cleanup_inv self cluster w) as (w' & -> & He). simpl.
  destruct He as [_|c _ _ _ _|c _ _ _ _ Htmp' w1 _ _ _]; [done| |congruence].
  simpl. split; [|done]. intros k Hk. by rewrite lookup_delete_ne.
Qed.

(** ** Setup, continued *)

(** How a [setup_cluster] ends: with nothing to do; with an exception
    and no process launched; or with the tool run once on the inventory
    that was written. *)
Lemma setup_cluster_cases self cluster w :
  (build_document self cluster = ∅
   ∧ setup_cluster self cluster w
     = (Return (self, true), with_ansible_env cluster w))
  ∨ (build_document self cluster ≠ ∅
     ∧ ∃ e w1, setup_cluster self cluster w = (Raise e, w1)
               ∧ calls w1 = calls w)
  ∨ (build_document self cluster ≠ ∅
     ∧ ∃ self1 path w1 rc,
         _build_inventory self cluster w = (Return (self1, Some path), w1)
         ∧ same_process w w1
         ∧ paths_ok self1 path w1 = true
         ∧ ansible_playbook w (length (calls w))
                            (launched self1 cluster path w1).1
                            (launched self1 cluster path w1).2 = Some rc
         ∧ setup_cluster self cluster w
           = (Return (self1, bool_decide (rc = 0)),
              add_call (launched self1 cluster path w1)
                       (with_ansible_env cluster w1))).
Proof.
  rewrite setup_cluster_bind.
  destruct (_build_inventory self cluster w) as [[[self1 o]|e] w1] eqn:Hb.
  - pose proof Hb as Hinv. apply build_inventory_inv in Hinv as [Hsp Hinv].
    destruct Hinv as [([= -> ->] & -> & Hd)|[H|H]].
    + left. by rewrite setup_with_inventory_none.
    + destruct H as (s & p & [= -> ->] & Hdoc & _). right.
      pose proof Hb as Hpath.
      apply build_inventory_path in Hpath as (Hp & _ & _ & Hc & Ht).
      destruct (paths_ok s p w1) eqn:Hok.
      * rewrite setup_with_inventory_checked by done.
        destruct (ansible_playbook w1 _ _ _) as [rc|] eqn:Hrc.
        -- right. split; [done|]. exists s, p, w1, rc.
           rewrite Ht, Hc in Hrc. done.
        -- left. split; [done|]. eauto.
      * destruct (setup_with_inventory_unchecked s cluster p w1 Hp Hok)
          as [msg ->]. left. split; [done|]. eauto.
    + by destruct H as (? & [=] & _).
  - apply build_inventory_inv in Hb as [Hsp Hinv]. right. left.
    destruct Hinv as [([=] & _)|[H|H]].
    + by destruct H as (? & ? & [=] & _).
    + destruct H as (msg & [= ->] & Hdoc). split; [done|].
      exists (IOError msg), w1. split; [done|]. by apply same_process_calls.
Qed.

(** X12.  What a result of [setup_cluster] tells the caller: [True] means
    that there was nothing to set up, and then no file was touched and no
    process launched, or that the tool exited with 0; [False] that the
    tool ran and exited with another code; and an exception that no child
    process was launched. *)
Theorem setup_result_meaning self cluster w :
  (∀ self1, (setup_cluster self cluster w).1 = Return (self1, true) →
     (build_document self cluster = ∅
      ∧ (setup_cluster self cluster w).2 = with_ansible_env cluster w
      ∧ fs (setup_cluster self cluster w).2 = fs w
      ∧ calls (setup_cluster self cluster w).2 = calls w)
     ∨ ∃ c, calls (setup_cluster self cluster w).2 = calls w ++ [c]
            ∧ ansible_playbook w (length (calls w)) c.1 c.2 = Some 0)
  ∧ (∀ self1, (setup_cluster self cluster w).1 = Return (self1, false) →
       ∃ c rc, calls (setup_cluster self cluster w).2 = calls w ++ [c]
               ∧ ansible_playbook w (length (calls w)) c.1 c.2 = Some rc
               ∧ rc ≠ 0)
  ∧ (∀ e, (setup_cluster self cluster w).1 = Raise e →
       calls (setup_cluster self cluster w).2 = calls w).
Proof.
  destruct (setup_cluster_cases self cluster w)
    as [[Hd ->]|[(Hd & e & w1 & -> & Hc)
                |(Hd & s & p & w1 & rc & _ & Hsp & _ & Hrc & ->)]]; simpl.
  - split; [intros; by left|]. by split.
  - split; [done|]. split; [done|]. by intros _ _.
  - rewrite (same_process_calls _ _ Hsp).
    split; [|split; [|done]].
    + intros _ [= _ Hb%bool_decide_eq_true]. right. subst rc. eauto.
    + intros _ [= _ Hb%bool_decide_eq_false]. eauto.
Qed.

(** X13.  A child process that [setup_cluster] launches gets the
    environment the parent had before the call with five variables set
    over it: the number of forks, no host key checking, the private key
    of the cluster, pipelining, and the time-out; every other variable is
    inherited.  [ansible_env] shares the mapping of [os.environ], so the
    environment of the parent after the call is that of the child. *)
Theorem child_environment self cluster w c :
  calls (setup_cluster self cluster w).2 = calls w ++ [c] →
  c.2 !! "ANSIBLE_FORKS" = Some "10"
  ∧ c.2 !! "ANSIBLE_HOST_KEY_CHECKING" = Some "no"
  ∧ c.2 !! "ANSIBLE_PRIVATE_KEY_FILE" = Some (Cluster.user_key_private cluster)
  ∧ c.2 !! "ANSIBLE_SSH_PIPELINING" = Some "yes"
  ∧ c.2 !! "ANSIBLE_TIMEOUT" = Some "120"
  ∧ (∀ var,
       var ∉ ["ANSIBLE_FORKS"; "ANSIBLE_HOST_KEY_CHECKING";
              "ANSIBLE_PRIVATE_KEY_FILE"; "ANSIBLE_SSH_PIPELINING";
              "ANSIBLE_TIMEOUT"] →
       c.2 !! var = environ w !! var)
  ∧ environ (setup_cluster self cluster w).2 = c.2.
Proof.
  intros Hc.
  assert (c.2 = ansible_env w (Cluster.user_key_private cluster)
          ∧ environ (setup_cluster self cluster w).2 = c.2) as [Hc2 He].
  { destruct (setup_cluster_cases self cluster w)
      as [[Hd Hs]|[(Hd & e & w1 & Hs & Hc')
                  |(Hd & s & p & w1 & rc & _ & Hsp & _ & _ & Hs)]];
      rewrite Hs in Hc |- *; simpl in Hc |- *.
    - by apply app_singleton_neq in Hc.
    - rewrite Hc' in Hc. by apply app_singleton_neq in Hc.
    - rewrite (same_process_calls _ _ Hsp) in Hc.
      apply (inj _) in Hc. injection Hc as Hc. subst c. simpl.
      unfold ansible_env. by rewrite (same_process_environ _ _ Hsp). }
  rewrite He, Hc2. unfold ansible_env.
  split; [by rewrite !lookup_insert_ne, lookup_insert_eq by done|].
  split; [by rewrite !lookup_insert_ne, lookup_insert_eq by done|].
  split; [by rewrite !lookup_insert_ne, lookup_insert_eq by done|].
  split; [by rewrite !lookup_insert_ne, lookup_insert_eq by done|].
  split; [by rewrite lookup_insert_eq|].
  split; [|done].
  intros var Hvar. rewrite !not_elem_of_cons in Hvar.
  destruct Hvar as (? & ? & ? & ? & ? & _).
  by rewrite !lookup_insert_ne by done.
Qed.

Lemma write_file_add_call p content c w :
  os.write_file p content (add_call c w)
  = ((os.write_file p content w).1, add_call c (os.write_file p content w).2).
Proof.
  unfold os.write_file, os_path.lookup_entry, os_path.resolve. simpl.
  destruct (_ || _); [done|].
  destruct (removelast _) eqn:E; simpl.
  - destruct (fs w !! _) as [[]|]; try done; by case_bool_decide.
  - destruct (fs w !! (_ :: _)) as [[]|]; [done| |done].
    destruct (fs w !! _) as [[]|]; try done; by case_bool_decide.
Qed.

Lemma write_file_set_environ p content env w :
  os.write_file p content (set_environ env w)
  = ((os.write_file p content w).1,
     set_environ env (os.write_file p content w).2).
Proof.
  unfold os.write_file, os_path.lookup_entry, os_path.resolve. simpl.
  destruct (_ || _); [done|].
  destruct (removelast _) eqn:E; simpl.
  - destruct (fs w !! _) as [[]|]; try done; by case_bool_decide.
  - destruct (fs w !! (_ :: _)) as [[]|]; [done| |done].
    destruct (fs w !! _) as [[]|]; try done; by case_bool_decide.
Qed.

(** The inventory is written again as it is, whatever was launched and
    whatever the environment has become in between. *)
Lemma build_inventory_again_after self cluster w s p w1 c env :
  _build_inventory self cluster w = (Return (s, Some p), w1) →
  _build_inventory s cluster (add_call c (set_environ env w1))
  = (Return (s, Some p), add_call c (set_environ env w1)).
Proof.
  intros (Hdoc & -> & w0 & Hprep & Hw)%build_inventory_written.
  apply write_file_twice in Hw.
  assert (build_document s cluster = build_document self cluster
          ∧ (_storage_path_tmp s = false
             ∨ PyStr.truthy (_storage_path s) = true)) as [Hd Ht].
  { destruct Hprep as [(_ & -> & H)|(d & _ & -> & H1 & _ & H2)]; [done|].
    split; [done|]. by right. }
  unfold inventory_path_of in *.
  unfold _build_inventory. rewrite Hd, bool_decide_eq_true_2 by done.
  os_unfold. destruct Ht as [Hx|Hx]; rewrite Hx; simpl.
  - by rewrite write_file_add_call, write_file_set_environ, Hw.
  - destruct (_storage_path_tmp s);
      by rewrite write_file_add_call, write_file_set_environ, Hw.
Qed.

Lemma with_ansible_env_again cluster w w' :
  environ w' = ansible_env w (Cluster.user_key_private cluster) →
  with_ansible_env cluster w' = w'.
Proof.
  intros H. unfold with_ansible_env.
  rewrite (ansible_env_again w w') by done. by destruct w'.
Qed.

(** X14.  [setup_cluster] can be run again: after a run that wrote the
    inventory and launched the tool, a second run for the same cluster
    leaves the inventory and the environment as they are and launches the
    tool with the same command line and the same environment; its result
    is decided by the exit code of this second launch alone, so that a
    run that failed can be made good by running again. *)
Theorem setup_cluster_again self cluster w self1 ok w2 c :
  setup_cluster self cluster w = (Return (self1, ok), w2) →
  calls w2 = calls w ++ [c] →
  setup_cluster self1 cluster w2
  = match ansible_playbook w2 (length (calls w2)) c.1 c.2 with
    | Some rc => (Return (self1, bool_decide (rc = 0)), add_call c w2)
    | None => (Raise (OSError "call: cannot execute"), w2)
    end.
Proof.
  intros Hs Hc.
  destruct (setup_cluster_cases self cluster w)
    as [[Hd Hs']|[(Hd & e & w1 & Hs' & _)
                 |(Hd & s & p & w1 & rc & Hb & Hsp & Hok & Hrc & Hs')]];
    rewrite Hs in Hs'.
  - injection Hs' as E1 E2 E3. subst. by apply app_singleton_neq in Hc.
  - done.
  - injection Hs' as E1 E2 E3. subst self1 ok w2. simpl in Hc.
    rewrite (same_process_calls _ _ Hsp) in Hc.
    apply (inj _) in Hc. injection Hc as Hc. subst c.
    pose proof (build_inventory_path _ _ _ _ _ _ Hb) as (Hp & _).
    set (c := launched s cluster p w1).
    set (w2 := add_call c (with_ansible_env cluster w1)).
    assert (environ w2 = ansible_env w1 (Cluster.user_key_private cluster))
      as Henv by done.
    rewrite setup_cluster_bind.
    unfold w2 at 1, with_ansible_env.
    rewrite (build_inventory_again_after _ _ _ _ _ _ _ _ Hb).
    fold (with_ansible_env cluster w1). fold w2.
    rewrite setup_with_inventory_checked; [|exact Hp|exact Hok].
    rewrite (with_ansible_env_again cluster w1 w2 Henv).
    assert (launched s cluster p w2 = c) as ->.
    { unfold c, launched. f_equal.
      by rewrite (ansible_env_again w1 w2) by done. }
    by destruct (ansible_playbook w2 _ _ _).
Qed.

(** ** Construction, continued *)

Lemma makedirs_step_keeps (m : gmap (list string) entry) (l : list (list string))
  (q : list string) :
  m !! q = Some Dir →
  foldl (λ m q, if m !! q is None then <[q := Dir]> m else m) m l !! q
  = Some Dir.
Proof.
  revert m. induction l as [|q' l IH]; intros m Hq; [done|]. simpl.
  apply IH. destruct (m !! q') eqn:E; [done|].
  destruct (decide (q' = q)) as [->|Hne]; [by rewrite lookup_insert_eq|].
  by rewrite lookup_insert_ne.
Qed.

Lemma makedirs_step_makes (m : gmap (list string) entry) (l : list (list string))
  (q : list string) :
  q ∈ l → m !! q = None ∨ m !! q = Some Dir →
  foldl (λ m q, if m !! q is None then <[q := Dir]> m else m) m l !! q
  = Some Dir.
Proof.
  revert m. induction l as [|q' l IH]; intros m Hin Hq.
  { by apply elem_of_nil in Hin. }
  simpl. destruct (decide (q' = q)) as [->|Hne].
  - apply makedirs_step_keeps. destruct Hq as [Hq|Hq]; rewrite Hq; [|done].
    by rewrite lookup_insert_eq.
  - apply elem_of_cons in Hin as [?|Hin]; [congruence|]. apply IH; [done|].
    destruct (m !! q'); [done|]. by rewrite lookup_insert_ne.
Qed.

Lemma makedirs_inv p w w' :
  os.makedirs p w = (Return (), w') →
  PyStr.truthy p = true ∧ os_path.stat w' p = Some Dir
  ∧ same_process w w'.
Proof.
  unfold os.makedirs. destruct (os_path.exists_ w p) eqn:He; [done|].
  destruct (PyStr.truthy p) eqn:Ht; [|done]. simpl.
  case_bool_decide as Hall; [|done]. intros [= <-].
  split; [done|]. split; [|by eexists].
  rewrite stat_truthy by done. unfold os_path.lookup_entry.
  rewrite resolve_set_fs.
  destruct (os_path.resolve w p) as [|x k] eqn:Ek; [done|]. cbn [fs set_fs].
  assert ((x :: k) ∈ os.ancestors_and_self (x :: k)) as Hin.
  { unfold os.ancestors_and_self. apply list_elem_of_In, in_map_iff.
    exists (length (x :: k)). split; [apply firstn_all|].
    apply in_seq. simpl. lia. }
  apply makedirs_step_makes; [done|].
  rewrite Forall_forall in Hall. by apply Hall.
Qed.

(** X15.  A provider that [__init__] returns has the arguments stored as
    given, the module directories parsed, a storage path that is not
    empty and is marked temporary exactly when none was given; a storage
    directory that was given exists afterwards, and is left alone when it
    existed before; without a playbook path the playbook is [site.yml]
    under the installation prefix.  No child process is launched. *)
Theorem init_result node_groups playbook_path environment_vars storage_path
  sudo sudo_user ansible_module_dir pipelining w self w' :
  __init__ node_groups playbook_path environment_vars storage_path sudo
           sudo_user ansible_module_dir pipelining w = (Return self, w') →
  groups self = node_groups
  ∧ environment self = environment_vars
  ∧ _sudo self = sudo ∧ _sudo_user self = sudo_user
  ∧ ssh_pipelining self = pipelining
  ∧ _ansible_module_dir self = parse_ansible_module_dir ansible_module_dir
  ∧ _storage_path_tmp self = negb (PyStr.truthy_opt storage_path)
  ∧ PyStr.truthy (_storage_path self) = true
  ∧ (PyStr.truthy_opt playbook_path = false →
     _playbook_path self
     = os_path.join
         (os_path.join (sys_prefix w)
            "share/elasticluster/providers/ansible-playbooks") "site.yml")
  ∧ (PyStr.truthy_opt storage_path = true →
     os_path.exists_ w' (_storage_path self) = true
     ∧ (os_path.exists_ w (_storage_path self) = true → w' = w))
  ∧ calls w' = calls w.
Proof.
  unfold __init__. os_unfold.
  set (pb := if negb (PyStr.truthy_opt playbook_path) then _ else _).
  assert (∃ v, pb w = (Return v, w)
               ∧ (PyStr.truthy_opt playbook_path = false →
                  v = os_path.join
                        (os_path.join (sys_prefix w)
                           "share/elasticluster/providers/ansible-playbooks")
                        "site.yml")) as (v & -> & Hv).
  { subst pb. destruct (PyStr.truthy_opt playbook_path); simpl;
      eexists; (split; [reflexivity|done]). }
  destruct (PyStr.truthy_opt storage_path) eqn:Hsp; simpl.
  - destruct (os_path.exists_ w _) eqn:He; simpl.
    + intros [= <- <-]. simpl. repeat split; try done.
      destruct (PyStr.truthy _) eqn:Ht; [done|].
      unfold os_path.exists_, os_path.stat in He. rewrite Ht in He.
      apply bool_decide_eq_true in He. by destruct He.
    + destruct (os.makedirs _ w) as [[[]|e] w1] eqn:Hm; [|done].
      intros [= <- <-]. simpl.
      apply makedirs_inv in Hm as (Ht & Hstat & Hproc).
      repeat split; try done.
      * by eapply stat_exists.
      * congruence.
      * by apply same_process_calls.
  - destruct (os.mkdtemp w) as [[d|e] w1] eqn:Hm; [|done].
    intros [= <- <-]. simpl.
    apply mkdtemp_inv in Hm as [Hproc [(d' & [= <-] & Ht)|(? & ?)]]; [|done].
    repeat split; try done. by apply same_process_calls.
Qed.

(** X16.  Restoring a provider: the attributes saved from a provider give
    that provider back; when the saved state has no [ssh_pipelining], as
    states saved by older versions, the provider is restored with
    pipelining on and its other attributes as saved.  Restoring adds no
    other attribute and changes none. *)
Theorem setstate_defaults_pipelining self :
  provider_of (__setstate__ (attributes self)) = Some self
  ∧ provider_of (__setstate__ (delete "ssh_pipelining" (attributes self)))
    = Some (set_ssh_pipelining true self)
  ∧ ∀ state : gmap string pyval,
      "ssh_pipelining" ∈ dom (__setstate__ state)
      ∧ dom (__setstate__ state) = {["ssh_pipelining"]} ∪ dom state
      ∧ (∀ k v, state !! k = Some v → __setstate__ state !! k = Some v)
      ∧ __setstate__ (__setstate__ state) = __setstate__ state.
Proof.
  split; [by destruct self|]. split; [by destruct self|].
  intros state. unfold __setstate__.
  destruct (decide ("ssh_pipelining" ∈ dom state)) as [Hin|Hnot].
  - rewrite !bool_decide_eq_false_2 by auto.
    split; [done|]. split; [|done].
    apply set_eq. intros k. rewrite elem_of_union, elem_of_singleton.
    split; [by right|]. by intros [->|?].
  - rewrite (bool_decide_eq_true_2 _ Hnot).
    assert ("ssh_pipelining" ∈ dom (<["ssh_pipelining" := PyBool true]> state))
      as Hin by (rewrite dom_insert_L; apply elem_of_union_l;
                 by apply elem_of_singleton).
    rewrite bool_decide_eq_false_2 by auto.
    split; [done|]. split; [by rewrite dom_insert_L|]. split; [|done].
    intros k v Hk. rewrite lookup_insert_ne; [done|].
    intros <-. apply Hnot, elem_of_dom. by eexists.
Qed.

(** ** The module directories, continued *)

Lemma parse_split_and_trim (o : option string) :
  parse_ansible_module_dir o =
  if PyStr.truthy_opt o then split_and_trim (default "" o) else [].
Proof.
  unfold parse_ansible_module_dir, split_and_trim, Re.split.
  destruct (PyStr.truthy_opt o); [|done].
  rewrite map_map.
  rewrite (map_ext _ (λ l, PyStr.of_chars (PyStr.strip_chars l)))
    by (intros; apply strip_of_chars).
  rewrite (map_ext (λ pth, PyStr.strip (PyStr.of_chars pth))
                   (λ l, PyStr.of_chars (PyStr.strip_chars l)))
    by (intros; apply strip_of_chars).
  rewrite <-!(map_map PyStr.strip_chars PyStr.of_chars). f_equal.
  by rewrite (split_fuel_cut _ _ [] []).
Qed.

Lemma cut_at_length (sep : ascii → bool) (s cur : list ascii) :
  length (PyStr.cut_at sep s cur) = S (length (List.filter sep s)).
Proof.
  revert cur. induction s as [|x s IH]; intros cur; simpl; [done|].
  destruct (sep x); simpl; by rewrite IH.
Qed.

Lemma cut_at_pieces (sep : ascii → bool) (s cur : list ascii) :
  Forall (λ x, sep x = false) cur →
  Forall (Forall (λ x, sep x = false)) (PyStr.cut_at sep s cur).
Proof.
  revert cur. induction s as [|x s IH]; intros cur Hcur; simpl.
  - constructor; [by apply Forall_rev|constructor].
  - destruct (sep x) eqn:Hx.
    + constructor; [by apply Forall_rev|]. by apply IH.
    + apply IH. by constructor.
Qed.

Lemma lstrip_Forall (P : ascii → Prop) (l : list ascii) :
  Forall P l → Forall P (PyStr.lstrip_chars l).
Proof.
  induction 1 as [|x l Hx Hl IH]; simpl; [constructor|].
  destruct (Ascii.is_space x); [done|by constructor].
Qed.

Lemma strip_Forall (P : ascii → Prop) (l : list ascii) :
  Forall P l → Forall P (PyStr.strip_chars l).
Proof.
  intros H. unfold PyStr.strip_chars.
  by apply Forall_rev, lstrip_Forall, Forall_rev, lstrip_Forall.
Qed.

Lemma contains_char_of_chars (c : ascii) (l : list ascii) :
  Forall (λ x, x ≠ c) l → PyStr.contains_char c (PyStr.of_chars l) = false.
Proof.
  induction 1 as [|x l Hx _ IH]; [done|]. simpl.
  by rewrite bool_decide_eq_false_2, IH.
Qed.

Lemma not_path_sep (x : ascii) :
  is_path_sep x = false ↔ x ≠ ","%char ∧ x ≠ ":"%char.
Proof.
  unfold is_path_sep. rewrite orb_false_iff, !bool_decide_eq_false. done.
Qed.

(** X17.  A setting that is not empty gives one path more than it has
    commas and colons: a separator at the start or at the end, or two in
    a row, give an empty path. *)
Theorem module_dir_count (s : string) :
  PyStr.truthy s = true →
  length (parse_ansible_module_dir (Some s))
  = S (length (List.filter is_path_sep (PyStr.chars s))).
Proof.
  intros Hs. rewrite parse_split_and_trim. simpl. rewrite Hs.
  unfold split_and_trim. by rewrite length_map, cut_at_length.
Qed.

(** X18.  No path of the result holds a comma or a colon. *)
Theorem module_dir_no_separator (o : option string) :
  Forall (λ pth, PyStr.contains_char "," pth = false
                 ∧ PyStr.contains_char ":" pth = false)
         (parse_ansible_module_dir o).
Proof.
  rewrite parse_split_and_trim. destruct (PyStr.truthy_opt o); [|constructor].
  unfold split_and_trim. apply List.Forall_forall.
  intros pth (l & <- & Hl)%in_map_iff.
  pose proof (cut_at_pieces is_path_sep (PyStr.chars (default "" o)) []
                (List.Forall_nil _)) as Hp.
  rewrite List.Forall_forall in Hp. specialize (Hp l Hl).
  rewrite strip_of_chars.
  apply strip_Forall in Hp.
  split; apply contains_char_of_chars; eapply Forall_impl; try exact Hp;
    by intros x [? ?]%not_path_sep.
Qed.

Lemma cut_at_join (l : list string) :
  l ≠ [] →
  Forall (λ x, Forall (λ c, is_path_sep c = false) (PyStr.chars x)) l →
  PyStr.cut_at is_path_sep (PyStr.chars (PyStr.join ":" l)) []
  = map PyStr.chars l.
Proof.
  intros Hne Hl. induction Hl as [|x l Hx Hl IH]; [done|].
  destruct l as [|y l].
  - simpl. by rewrite cut_at_none.
  - change (PyStr.join ":" (x :: y :: l))
      with (x +:+ ":" +:+ PyStr.join ":" (y :: l)).
    rewrite chars_app.
    change (PyStr.chars (":" +:+ PyStr.join ":" (y :: l)))
      with (":"%char :: PyStr.chars (PyStr.join ":" (y :: l))).
    rewrite cut_at_sep by done. rewrite IH by done.
    by rewrite cut_at_none.
Qed.

(** X19.  Joining paths with colons and parsing the result gives the
    paths back, when they are trimmed and hold no comma and no colon, and
    the joined text is not empty. *)
Theorem module_dir_round_trip (paths : list string) :
  Forall (λ pth, PyStr.strip pth = pth
                 ∧ PyStr.contains_char "," pth = false
                 ∧ PyStr.contains_char ":" pth = false) paths →
  PyStr.truthy (PyStr.join ":" paths) = true →
  parse_ansible_module_dir (Some (PyStr.join ":" paths)) = paths.
Proof.
  intros Hp Ht. rewrite parse_split_and_trim. simpl. rewrite Ht.
  unfold split_and_trim. rewrite cut_at_join.
  - rewrite map_map. rewrite <-(map_id paths) at 2.
    apply map_ext_Forall. eapply Forall_impl; [exact Hp|].
    intros pth (Hs & _). simpl. by rewrite of_chars_chars.
  - by destruct paths.
  - eapply Forall_impl; [exact Hp|]. intros pth (_ & H1 & H2). simpl.
    apply contains_char_chars in H1, H2.
    apply Forall_forall. intros c Hc.
    rewrite Forall_forall in H1, H2. apply not_path_sep.
    split; [specialize (H1 c Hc)|specialize (H2 c Hc)];
      by apply bool_decide_eq_false in H1 || apply bool_decide_eq_false in H2.
Qed.

(** ** The command line, continued *)

(** X21.  The flags [--sudo] and [--sudo-user=<user>] are on the command
    line, next to each other, when the provider is to use [sudo], and
    [--sudo] is not on it otherwise. *)
Theorem sudo_flags self w path :
  ("--sudo" ∈ command_line self w path ↔ _sudo self = true)
  ∧ (if _sudo self
     then ∃ rest, command_line self w path
                  = ["ansible-playbook";
                     os_path.realpath w (_playbook_path self);
                     "--inventory=" +:+ path; "--sudo";
                     "--sudo-user=" +:+ _sudo_user self] ++ rest
     else Forall (λ arg, arg ≠ "--sudo"
                         ∧ arg ≠ "--sudo-user=" +:+ _sudo_user self)
                 (command_line self w path)).
Proof.
  assert (∀ n, "-" +:+ PyStr.repeat_char "v" n ≠ "--sudo"
               ∧ "-" +:+ PyStr.repeat_char "v" n
                 ≠ "--sudo-user=" +:+ _sudo_user self) as Hv.
  { intros [|n]; split; discriminate. }
  unfold command_line, os_path.realpath.
  destruct (_sudo self) eqn:Hs.
  - split.
    + split; [done|]. intros _.
      destruct (bool_decide (verbosity w > 0)); simpl;
        do 3 apply list_elem_of_further; apply list_elem_of_here.
    + destruct (bool_decide (verbosity w > 0)); simpl; eauto.
  - assert (Forall (λ arg, arg ≠ "--sudo"
                           ∧ arg ≠ "--sudo-user=" +:+ _sudo_user self)
              (if bool_decide (verbosity w > 0)
               then ["ansible-playbook";
                     "/" +:+ PyStr.join "/" (os_path.resolve w (_playbook_path self));
                     "--inventory=" +:+ path]
                    ++ ["-" +:+ PyStr.repeat_char "v" (Z.to_nat (verbosity w))]
               else ["ansible-playbook";
                     "/" +:+ PyStr.join "/" (os_path.resolve w (_playbook_path self));
                     "--inventory=" +:+ path])) as Hall.
    { destruct (bool_decide (verbosity w > 0)); simpl;
        repeat (constructor; [first [apply Hv|split; discriminate]|]);
        constructor. }
    split; [|done]. split; [|done]. intros Hin.
    rewrite Forall_forall in Hall. by destruct (Hall _ Hin).
Qed.

(** ** Worked examples, continued *)

Lemma ex_document_nonempty (self : AnsibleSetupProvider) (name : string) :
  groups self = {[ "frontend" := ["web"] ]} →
  build_document self (ex_cluster name) ≠ ∅.
Proof.
  intros Hg H.
  pose proof (proj1 (build_document_empty self (ex_cluster name)) H) as H'.
  destruct (H' ex_node) as [Hn|Hn]; [by left|..];
    rewrite Hg in Hn; simpl in Hn; by rewrite lookup_singleton_eq in Hn.
Qed.

Lemma unmapped_overrides_inert_witness :
  (∀ kind, kind ∈ dom (groups (ex_provider {[ "frontend" := ["web"] ]})) →
     ({[ "worker" := {[ "role" := "compute" ]} ]}
        : gmap string (gmap string string)) !! kind
     = environment (ex_provider {[ "frontend" := ["web"] ]}) !! kind)
  ∧ build_document
      (set_environment {[ "worker" := {[ "role" := "compute" ]} ]}
                       (ex_provider {[ "frontend" := ["web"] ]}))
      (ex_cluster "a")
    = build_document (ex_provider {[ "frontend" := ["web"] ]}) (ex_cluster "a").
Proof.
  assert (∀ kind, kind ∈ dom (groups (ex_provider {[ "frontend" := ["web"] ]})) →
            ({[ "worker" := {[ "role" := "compute" ]} ]}
               : gmap string (gmap string string)) !! kind
            = environment (ex_provider {[ "frontend" := ["web"] ]}) !! kind)
    as H.
  { intros kind Hk. simpl in Hk. rewrite dom_singleton_L in Hk.
    apply elem_of_singleton in Hk. subst kind. reflexivity. }
  split; [exact H|].
  exact (unmapped_overrides_inert _ (ex_cluster "a") _ H).
Defined.

Lemma document_keeps_node_order_witness :
  (∀ kind gs, groups (ex_provider {[ "frontend" := ["web"] ]}) !! kind = Some gs →
              NoDup gs)
  ∧ default [] (build_document (ex_provider {[ "frontend" := ["web"] ]})
                               (ex_cluster "a") !! "web")
    = [("n1", Some "10.0.0.1", "ansible_ssh_user=ubuntu")].
Proof.
  assert (∀ kind gs,
            groups (ex_provider {[ "frontend" := ["web"] ]}) !! kind = Some gs →
            NoDup gs) as H.
  { intros kind gs Hk. simpl in Hk.
    apply lookup_singleton_Some in Hk as [_ <-].
    constructor; [apply not_elem_of_nil|constructor]. }
  split; [exact H|].
  etrans; [exact (document_keeps_node_order _ (ex_cluster "a") "web" H)|].
  vm_compute. reflexivity.
Defined.

Lemma build_inventory_idempotent_witness :
  _build_inventory (ex_provider {[ "frontend" := ["web"] ]}) (ex_cluster "a")
                   (ex_world 0)
  = (Return (ex_provider {[ "frontend" := ["web"] ]},
             Some "/tmp/ec/ansible-inventory.a"),
     (_build_inventory (ex_provider {[ "frontend" := ["web"] ]})
                       (ex_cluster "a") (ex_world 0)).2)
  ∧ _build_inventory (ex_provider {[ "frontend" := ["web"] ]}) (ex_cluster "a")
      (_build_inventory (ex_provider {[ "frontend" := ["web"] ]})
                        (ex_cluster "a") (ex_world 0)).2
    = (Return (ex_provider {[ "frontend" := ["web"] ]},
               Some "/tmp/ec/ansible-inventory.a"),
       (_build_inventory (ex_provider {[ "frontend" := ["web"] ]})
                         (ex_cluster "a") (ex_world 0)).2).
Proof.
  assert (_build_inventory (ex_provider {[ "frontend" := ["web"] ]})
            (ex_cluster "a") (ex_world 0)
          = (Return (ex_provider {[ "frontend" := ["web"] ]},
                     Some "/tmp/ec/ansible-inventory.a"),
             (_build_inventory (ex_provider {[ "frontend" := ["web"] ]})
                               (ex_cluster "a") (ex_world 0)).2)) as H
    by (vm_compute; reflexivity).
  split; [exact H|].
  exact (build_inventory_idempotent _ _ _ _ _ _ H).
Defined.

Lemma build_inventory_frame_witness :
  (_storage_path_tmp ex_user_provider = false
   ∨ PyStr.truthy (_storage_path ex_user_provider) = true)
  ∧ fs (_build_inventory ex_user_provider (ex_cluster "a") (ex_world 0)).2
    !! ["srv"; "site.yml"]
    = Some (File "- hosts: all").
Proof.
  assert (_storage_path_tmp ex_user_provider = false
          ∨ PyStr.truthy (_storage_path ex_user_provider) = true) as H
    by (left; reflexivity).
  split; [exact H|].
  destruct (build_inventory_frame ex_user_provider (ex_cluster "a")
              (ex_world 0) H) as [Hfs _].
  rewrite Hfs; [reflexivity|vm_compute; discriminate].
Defined.

Lemma setup_needs_storage_directory_witness :
  os_path.stat (ex_world 0) "/tmp/gone" ≠ Some Dir
  ∧ ∃ msg, setup_cluster
             (set_storage_path "/tmp/gone"
                (ex_provider {[ "frontend" := ["web"] ]}))
             (ex_cluster "a") (ex_world 0)
           = (Raise (IOError msg), ex_world 0).
Proof.
  assert (os_path.stat (ex_world 0) "/tmp/gone" ≠ Some Dir) as H
    by (vm_compute; discriminate).
  split; [exact H|].
  destruct (setup_needs_storage_directory
              (set_storage_path "/tmp/gone"
                 (ex_provider {[ "frontend" := ["web"] ]}))
              (ex_cluster "a") (ex_world 0)
              (ex_document_nonempty
                 (set_storage_path "/tmp/gone"
                    (ex_provider {[ "frontend" := ["web"] ]})) "a" eq_refl)
              eq_refl H eq_refl)
    as (msg & _ & Hs).
  by exists msg.
Defined.

Lemma build_then_cleanup_restores_witness :
  _storage_path_tmp ex_user_provider = false
  ∧ os_path.stat (ex_world 0) (_storage_path ex_user_provider) = Some Dir
  ∧ cleanup ex_user_provider (ex_cluster "a")
      (_build_inventory ex_user_provider (ex_cluster "a") (ex_world 0)).2
    = (Return (), ex_world 0).
Proof.
  split; [reflexivity|]. split; [vm_compute; reflexivity|].
  destruct (build_then_cleanup_restores ex_user_provider (ex_cluster "a")
              (ex_world 0) eq_refl
              (ex_document_nonempty ex_user_provider "a" eq_refl) eq_refl)
    as (w1 & Hb & _ & Hc).
  - vm_compute. reflexivity.
  - reflexivity.
  - vm_compute. reflexivity.
  - apply not_elem_of_empty.
  - apply (f_equal snd) in Hb. simpl in Hb. subst w1. exact Hc.
Defined.

Lemma build_then_cleanup_reclaims_witness :
  _storage_path_tmp (ex_provider {[ "frontend" := ["web"] ]}) = true
  ∧ os.children (ex_world 0) ["tmp"; "ec"] = []
  ∧ os_path.exists_
      (cleanup (ex_provider {[ "frontend" := ["web"] ]}) (ex_cluster "a")
         (_build_inventory (ex_provider {[ "frontend" := ["web"] ]})
                           (ex_cluster "a") (ex_world 0)).2).2
      "/tmp/ec"
    = false.
Proof.
  split; [reflexivity|]. split; [vm_compute; reflexivity|].
  destruct (build_then_cleanup_reclaims
              (ex_provider {[ "frontend" := ["web"] ]}) (ex_cluster "a")
              (ex_world 0) eq_refl
              (ex_document_nonempty (ex_provider {[ "frontend" := ["web"] ]})
                                    "a" eq_refl) eq_refl)
    as (w1 & Hb & _ & Hgone).
  - vm_compute. reflexivity.
  - vm_compute. discriminate.
  - vm_compute. reflexivity.
  - intros q Hq. exfalso. by apply not_elem_of_empty in Hq.
  - reflexivity.
  - apply (f_equal snd) in Hb. simpl in Hb. subst w1. exact Hgone.
Defined.

Lemma cleanup_keeps_user_storage_witness :
  _storage_path_tmp ex_user_provider = false
  ∧ fs (cleanup ex_user_provider (ex_cluster "a")
          (_build_inventory ex_user_provider (ex_cluster "a") (ex_world 0)).2).2
    !! ["srv"; "inventories"]
    = Some Dir.
Proof.
  split; [reflexivity|].
  destruct (cleanup_keeps_user_storage ex_user_provider (ex_cluster "a")
              (_build_inventory ex_user_provider (ex_cluster "a")
                                (ex_world 0)).2 eq_refl) as [Hfs _].
  rewrite Hfs; [vm_compute; reflexivity|vm_compute; discriminate].
Defined.

Lemma child_environment_witness :
  calls (setup_cluster (ex_provider {[ "frontend" := ["web"] ]})
                       (ex_cluster "a") (ex_world 0)).2
  = calls (ex_world 0)
    ++ [launched (ex_provider {[ "frontend" := ["web"] ]}) (ex_cluster "a")
          "/tmp/ec/ansible-inventory.a"
          (_build_inventory (ex_provider {[ "frontend" := ["web"] ]})
                            (ex_cluster "a") (ex_world 0)).2]
  ∧ environ (ex_world 0) !! "ANSIBLE_FORKS" = None
  ∧ environ (setup_cluster (ex_provider {[ "frontend" := ["web"] ]})
                           (ex_cluster "a") (ex_world 0)).2
    !! "ANSIBLE_FORKS" = Some "10"
  ∧ environ (setup_cluster (ex_provider {[ "frontend" := ["web"] ]})
                           (ex_cluster "a") (ex_world 0)).2
    !! "HOME" = Some "/home/ec".
Proof.
  assert (calls (setup_cluster (ex_provider {[ "frontend" := ["web"] ]})
                               (ex_cluster "a") (ex_world 0)).2
          = calls (ex_world 0)
            ++ [launched (ex_provider {[ "frontend" := ["web"] ]})
                  (ex_cluster "a") "/tmp/ec/ansible-inventory.a"
                  (_build_inventory (ex_provider {[ "frontend" := ["web"] ]})
                                    (ex_cluster "a") (ex_world 0)).2]) as H
    by (vm_compute; reflexivity).
  split; [exact H|]. split; [reflexivity|].
  destruct (child_environment _ _ _ _ H) as (Hf & _ & _ & _ & _ & Hin & ->).
  split; [exact Hf|]. rewrite Hin; [reflexivity|].
  rewrite !not_elem_of_cons. repeat split; try discriminate.
  apply not_elem_of_nil.
Defined.

Lemma setup_cluster_again_witness :
  (setup_cluster (ex_provider {[ "frontend" := ["web"] ]}) (ex_cluster "a")
                 ex_world_retry).1
  = Return (ex_provider {[ "frontend" := ["web"] ]}, false)
  ∧ (setup_cluster (ex_provider {[ "frontend" := ["web"] ]}) (ex_cluster "a")
       (setup_cluster (ex_provider {[ "frontend" := ["web"] ]})
                      (ex_cluster "a") ex_world_retry).2).1
    = Return (ex_provider {[ "frontend" := ["web"] ]}, true)
  ∧ length (calls
      (setup_cluster (ex_provider {[ "frontend" := ["web"] ]}) (ex_cluster "a")
         (setup_cluster (ex_provider {[ "frontend" := ["web"] ]})
                        (ex_cluster "a") ex_world_retry).2).2)
    = 2%nat.
Proof.
  split; [vm_compute; reflexivity|].
  rewrite (setup_cluster_again
             (ex_provider {[ "frontend" := ["web"] ]}) (ex_cluster "a")
             ex_world_retry (ex_provider {[ "frontend" := ["web"] ]}) false
             (setup_cluster (ex_provider {[ "frontend" := ["web"] ]})
                            (ex_cluster "a") ex_world_retry).2
             (launched (ex_provider {[ "frontend" := ["web"] ]})
                (ex_cluster "a") "/tmp/ec/ansible-inventory.a"
                (_build_inventory (ex_provider {[ "frontend" := ["web"] ]})
                                  (ex_cluster "a") ex_world_retry).2));
    [|vm_compute; reflexivity|vm_compute; reflexivity].
  split; vm_compute; reflexivity.
Defined.

Lemma init_result_witness :
  outcome_map (λ self, (_storage_path_tmp self, _sudo_user self,
                        _ansible_module_dir self, _playbook_path self))
    (__init__ {[ "frontend" := ["web"] ]} None ∅ None true "root"
              (Some "/opt/mods, lib") false (ex_world 0)).1
  = Return (true, "root", ["/opt/mods"; "lib"],
            "/usr/share/elasticluster/providers/ansible-playbooks/site.yml").
Proof.
  destruct (__init__ {[ "frontend" := ["web"] ]} None ∅ None true "root"
              (Some "/opt/mods, lib") false (ex_world 0))
    as [[self|e] w'] eqn:Hi; [|vm_compute in Hi; discriminate Hi].
  destruct (init_result _ _ _ _ _ _ _ _ _ _ _ Hi)
    as (_ & _ & _ & Hu & _ & Hm & Ht & _ & Hp & _).
  simpl. rewrite Hu, Hm, Ht, (Hp eq_refl). reflexivity.
Defined.

Lemma module_dir_count_witness :
  PyStr.truthy "a,,b:" = true
  ∧ length (parse_ansible_module_dir (Some "a,,b:")) = 4%nat.
Proof.
  split; [reflexivity|].
  rewrite (module_dir_count "a,,b:" eq_refl). reflexivity.
Defined.

Lemma module_dir_round_trip_witness :
  PyStr.truthy (PyStr.join ":" ["/opt/mods"; "lib"]) = true
  ∧ parse_ansible_module_dir (Some "/opt/mods:lib") = ["/opt/mods"; "lib"].
Proof.
  split; [reflexivity|].
  apply (module_dir_round_trip ["/opt/mods"; "lib"]); [|reflexivity].
  repeat constructor.
Defined.
